(** * Rice Doctor AI: the diagnostic pipeline of [app.py]

    A shallow embedding of the Streamlit script [app.py]: the knowledge base
    [rice_consultant], the cached model loader [load_model], the function
    [diagnose] and the script body that calls them.

    The script talks to four collaborators: the local file system
    ([tempfile], [os.remove], the artifact [best.pt]), Pillow ([Image.open],
    [Image.save]), the classification backend ([YOLO], the result objects
    it returns) and Streamlit (the rendered elements, [st.cache_resource],
    [st.stop]).  Each of them is embedded as a small executable model over
    an explicit [World]; the code of [app.py] itself is embedded statement
    by statement in a state-and-exception monad over that world. *)

From Stdlib Require Import PrimFloat ZArith Lia Ascii String.
From Stdlib Require Import SpecFloat FloatOps FloatAxioms.
From stdpp Require Import gmap strings list fin_maps.

Open Scope string_scope.

(** ** Numbers

    [app.py] handles one number, the top-1 probability, which it multiplies
    by the literal [100].  [Scalar] lists the operations on numbers that
    the program and the backend use; its instance is Python's [float].

    The backend's tensor holds float32 entries.  Every float32 number is a
    binary64 number, the comparisons of [argmax] give the same answers on
    both, and [.item()] hands the selected entry to Python as the binary64
    number of the same value; the multiplication by [100] is then a
    binary64 multiplication, rounded to nearest even.  The embedding
    therefore keeps the entries as the binary64 numbers [.item()] would
    return. *)

Class Scalar (F : Type) := {
  s_mul : F → F → F;        (* [x * y] *)
  s_ltb : F → F → bool;     (* [x < y], as the backend's argmax compares *)
  s_isnan : F → bool;       (* [isnan(x)], which the argmax tests first *)
  s_hundred : F;            (* the literal [100] *)
}.

(** Python's [float]: IEEE 754 binary64. *)
#[export] Instance float_Scalar : Scalar float := {|
  s_mul := PrimFloat.mul;
  s_ltb := PrimFloat.ltb;
  s_isnan := PrimFloat.is_nan;
  s_hundred := 100%float;
|}.

(** ** Exceptions *)

Inductive Exn :=
| FileNotFoundError (path : string)
| FileExistsError
| OSError (msg : string)
| ValueError (msg : string)
| UnidentifiedImageError
| IndexError
| KeyError (key : string)
| KeyError_int (key : nat)
| AttributeError (attr : string)
| NameError (name : string)
| BackendError (msg : string)   (* anything the inference backend raises *)
| StopException.                (* raised by [st.stop()] *)

(** [StopException] derives from [BaseException] only: [except Exception]
    does not catch it. *)
Definition is_Exception (e : Exn) : bool :=
  match e with
  | StopException => false
  | _ => true
  end.

(** The outcome of a statement: a value, or a raised exception. *)
Inductive Res (A : Type) :=
| Ret (a : A)
| Raise (e : Exn).
Arguments Ret {A} a.
Arguments Raise {A} e.

(** ** Images and files *)

Inductive Mode :=
| M_1 | M_L | M_P | M_RGB | M_RGBA | M_CMYK | M_YCbCr | M_LAB | M_HSV
| M_I | M_F | M_LA | M_PA | M_RGBX | M_RGBa | M_La.

Inductive Format := JPEG | PNG.

Definition mode_name (m : Mode) : string :=
  match m with
  | M_1 => "1" | M_L => "L" | M_P => "P" | M_RGB => "RGB" | M_RGBA => "RGBA"
  | M_CMYK => "CMYK" | M_YCbCr => "YCbCr" | M_LAB => "LAB" | M_HSV => "HSV"
  | M_I => "I" | M_F => "F" | M_LA => "LA" | M_PA => "PA" | M_RGBX => "RGBX"
  | M_RGBa => "RGBa" | M_La => "La"
  end.

Definition format_name (f : Format) : string :=
  match f with
  | JPEG => "JPEG"
  | PNG => "PNG"
  end.

(** A [PIL.Image.Image]. *)
Record Image := {
  im_format : option Format;   (* format of the file it was opened from *)
  im_mode : Mode;
  im_pixels : list N;
}.

(** ** Paths: [os.path.splitext] and [str.lower] *)

Definition is_sep (c : ascii) : bool := Ascii.eqb c "/".
Definition is_dot (c : ascii) : bool := Ascii.eqb c ".".

Fixpoint has_sep (s : string) : bool :=
  match s with
  | EmptyString => false
  | String c r => is_sep c || has_sep r
  end.

(** The part after the last separator. *)
Fixpoint basename (s : string) : string :=
  match s with
  | EmptyString => EmptyString
  | String c r => if has_sep r then basename r else if is_sep c then r else s
  end.

Fixpoint lstrip_dots (s : string) : string :=
  match s with
  | EmptyString => EmptyString
  | String c r => if is_dot c then lstrip_dots r else s
  end.

(** The suffix that starts at the last dot, empty when there is no dot. *)
Fixpoint last_ext (s : string) : string :=
  match s with
  | EmptyString => EmptyString
  | String c r =>
      match last_ext r with
      | EmptyString => if is_dot c then s else EmptyString
      | e => e
      end
  end.

(** [os.path.splitext(p)[1]]: the extension of the last path component,
    leading dots of that component not counting as an extension. *)
Definition splitext_ext (p : string) : string :=
  last_ext (lstrip_dots (basename p)).

Definition lower_ascii (c : ascii) : ascii :=
  let n := nat_of_ascii c in
  if (65 <=? n)%nat && (n <=? 90)%nat then ascii_of_nat (n + 32) else c.

Fixpoint lower (s : string) : string :=
  match s with
  | EmptyString => EmptyString
  | String c r => String (lower_ascii c) (lower r)
  end.

(** ** [tempfile] *)

(** The characters [tempfile] draws names from. *)
Definition tempfile_characters : list ascii :=
  list_ascii_of_string "abcdefghijklmnopqrstuvwxyz0123456789_".

(** One random name: each draw of the generator picks one character. *)
Definition random_name (draws : list nat) : string :=
  string_of_list_ascii
    (map (λ i, nth (i mod length tempfile_characters) tempfile_characters "_"%char) draws).

Definition gettempdir : string := "/tmp".
Definition tempfile_prefix : string := "tmp".

Definition temp_path (suffix : string) (draws : list nat) : string :=
  gettempdir +:+ "/" +:+ tempfile_prefix +:+ random_name draws +:+ suffix.

Section Program.

Context {F : Type} `{Scalar F}.

(** What the backend returns for one image: [names] maps class indices to
    labels, [probs.data] holds one probability per class index. *)
Record Probs := { data : list F }.

Record Result := {
  r_probs : option Probs;       (* [None] for a model that is no classifier *)
  r_names : gmap nat string;
}.

(** The trained classifier stored in the artifact. *)
Definition Classifier := Image → Res (list Result).

Inductive File :=
| Empty                                   (* a file just created *)
| ImageFile (fmt : Format) (img : Image)  (* [img] encoded as [fmt] *)
| Weights (clf : Classifier)              (* a trained model artifact *)
| Junk (bytes : list N).

(** A loaded model object; [obj_id] is the identity of the Python object. *)
Record YOLOModel := {
  obj_id : nat;
  yolo_weights : Classifier;
}.

(** ** Rendered elements and backend calls *)

(** A piece of an f-string: literal text, or a number formatted [:.1f]. *)
Inductive Fragment :=
| Lit (s : string)
| Fixed1 (x : F).

Inductive Event :=
| st_set_page_config (page_title page_icon : string)
| st_title (body : string)
| st_markdown (body : list Fragment)
| st_info (body : list Fragment)
| st_error (body : list Fragment)
| st_success (body : list Fragment)
| st_warning (body : list Fragment)
| st_image (image : Image) (caption : string)
| st_spinner (text : string)
| st_expander (label : string) (expanded : bool)
| st_tabs (labels : list string)
| st_camera_input (label : string)
| st_file_uploader (label : string) (types : list string)
| st_button (label : string)
| ev_YOLO (path : string)                  (* [YOLO(path)] is attempted *)
| ev_predict (model_id : nat) (source : string).   (* [model(source)] *)

(** ** The world *)

Record World := {
  disk : gmap string File;                 (* the local file system *)
  rng : list (list nat);                   (* what [tempfile]'s random generator will draw *)
  resource_cache : option YOLOModel;            (* [st.cache_resource]'s entry for [load_model] *)
  next_id : nat;                           (* next fresh object identity *)
  g_rice_consultant : option (gmap string (gmap string string));  (* global [rice_consultant] *)
  g_model : option YOLOModel;                   (* global [model] *)
  trace : list Event;
}.

Definition set_disk (d : gmap string File) (w : World) : World :=
  {| disk := d; rng := rng w; resource_cache := resource_cache w;
     next_id := next_id w; g_rice_consultant := g_rice_consultant w;
     g_model := g_model w; trace := trace w |}.

Definition set_rng (r : list (list nat)) (w : World) : World :=
  {| disk := disk w; rng := r; resource_cache := resource_cache w;
     next_id := next_id w; g_rice_consultant := g_rice_consultant w;
     g_model := g_model w; trace := trace w |}.

Definition set_resource_cache (c : option YOLOModel) (w : World) : World :=
  {| disk := disk w; rng := rng w; resource_cache := c;
     next_id := next_id w; g_rice_consultant := g_rice_consultant w;
     g_model := g_model w; trace := trace w |}.

Definition set_next_id (n : nat) (w : World) : World :=
  {| disk := disk w; rng := rng w; resource_cache := resource_cache w;
     next_id := n; g_rice_consultant := g_rice_consultant w;
     g_model := g_model w; trace := trace w |}.

Definition set_g_rice_consultant (k : option (gmap string (gmap string string))) (w : World) : World :=
  {| disk := disk w; rng := rng w; resource_cache := resource_cache w;
     next_id := next_id w; g_rice_consultant := k;
     g_model := g_model w; trace := trace w |}.

Definition set_g_model (m : option YOLOModel) (w : World) : World :=
  {| disk := disk w; rng := rng w; resource_cache := resource_cache w;
     next_id := next_id w; g_rice_consultant := g_rice_consultant w;
     g_model := m; trace := trace w |}.

Definition set_trace (t : list Event) (w : World) : World :=
  {| disk := disk w; rng := rng w; resource_cache := resource_cache w;
     next_id := next_id w; g_rice_consultant := g_rice_consultant w;
     g_model := g_model w; trace := t |}.

(** ** The monad of Python statements: state and exceptions *)

Definition Py (A : Type) : Type := World → Res A * World.

Definition ret {A} (a : A) : Py A := λ w, (Ret a, w).

Definition raise {A} (e : Exn) : Py A := λ w, (Raise e, w).

Definition bind {A B} (c : Py A) (k : A → Py B) : Py B :=
  λ w, match c w with
       | (Ret a, w') => k a w'
       | (Raise e, w') => (Raise e, w')
       end.

(** [try: c  except Exception as e: h e] *)
Definition try_except {A} (c : Py A) (h : Exn → Py A) : Py A :=
  λ w, match c w with
       | (Ret a, w') => (Ret a, w')
       | (Raise e, w') => if is_Exception e then h e w' else (Raise e, w')
       end.

Definition emit (e : Event) : Py unit :=
  λ w, (Ret tt, set_trace (trace w ++ [e]) w).

Declare Scope py_scope.
Delimit Scope py_scope with py.
Notation "x <- c ;; k" := (bind c (λ x, k))
  (at level 100, c at next level, right associativity) : py_scope.
Notation "c ;; k" := (bind c (λ _, k))
  (at level 100, right associativity) : py_scope.
Local Open Scope py_scope.

(** ** The file system: [tempfile] and [os.remove] *)

(** [tempfile._mkstemp_inner]: draw names until one does not exist yet;
    returns the path and the draws left.  Running out of draws stands for
    the [TMP_MAX] failed attempts after which [tempfile] gives up. *)
Fixpoint mkstemp_inner (d : gmap string File) (suffix : string)
    (draws : list (list nat)) : option (string * list (list nat)) :=
  match draws with
  | [] => None
  | n :: rest =>
      match d !! temp_path suffix n with
      | None => Some (temp_path suffix n, rest)
      | Some _ => mkstemp_inner d suffix rest
      end
  end.

(** [with tempfile.NamedTemporaryFile(delete=False, suffix=suffix) as tmp]:
    the file is created empty; leaving the block closes it and, with
    [delete=False], leaves it on disk.  The value is [tmp.name]. *)
Definition NamedTemporaryFile (suffix : string) : Py string :=
  λ w, match mkstemp_inner (disk w) suffix (rng w) with
       | Some (path, rest) =>
           (Ret path, set_rng rest (set_disk (<[path := Empty]> (disk w)) w))
       | None => (Raise FileExistsError, set_rng [] w)
       end.

(** [os.remove(path)] *)
Definition os_remove (path : string) : Py unit :=
  λ w, match disk w !! path with
       | Some _ => (Ret tt, set_disk (delete path (disk w)) w)
       | None => (Raise (FileNotFoundError path), w)
       end.

(** ** Pillow *)

(** [Image.registered_extensions()], for the two formats met here. *)
Definition EXTENSION (ext : string) : option Format :=
  if String.eqb ext ".jpg" || String.eqb ext ".jpeg" || String.eqb ext ".jpe"
     || String.eqb ext ".jfif"
  then Some JPEG
  else if String.eqb ext ".png" || String.eqb ext ".apng" then Some PNG
  else None.

(** The modes each writer encodes ([RAWMODE] of the JPEG plugin,
    [_OUTMODES] of the PNG plugin). *)
Definition can_write (fmt : Format) (m : Mode) : bool :=
  match fmt, m with
  | JPEG, (M_1 | M_L | M_RGB | M_RGBX | M_CMYK | M_YCbCr) => true
  | PNG, (M_1 | M_L | M_LA | M_I | M_P | M_RGB | M_RGBA) => true
  | _, _ => false
  end.

Definition cannot_write (fmt : Format) (m : Mode) : Exn :=
  OSError ("cannot write mode " +:+ mode_name m +:+ " as " +:+ format_name fmt).

(** [im.save(filename)]: the format follows from the extension of
    [filename], never from [im.format].  The file is opened for writing
    (created or truncated) before the writer runs; when the writer refuses
    the mode, a file that [save] created itself is removed again, a file
    that was there before stays, truncated. *)
Definition Image_save (im : Image) (filename : string) : Py unit :=
  λ w, match EXTENSION (lower (splitext_ext filename)) with
       | None => (Raise (ValueError "unknown file extension"), w)
       | Some fmt =>
           if can_write fmt (im_mode im)
           then (Ret tt, set_disk (<[filename := ImageFile fmt im]> (disk w)) w)
           else (Raise (cannot_write fmt (im_mode im)),
                 match disk w !! filename with
                 | None => w
                 | Some _ => set_disk (<[filename := Empty]> (disk w)) w
                 end)
       end.

(** What [st.camera_input] and [st.file_uploader] hand over. *)
Record UploadedFile := {
  upload_name : string;
  upload_content : File;
}.

(** [Image.open(fp)] *)
Definition Image_open (fp : UploadedFile) : Py Image :=
  match upload_content fp with
  | ImageFile fmt img =>
      ret {| im_format := Some fmt; im_mode := im_mode img; im_pixels := im_pixels img |}
  | _ => raise UnidentifiedImageError
  end.

(** ** The classification backend *)

(** [YOLO(path)]: a new model object built from the artifact at [path]. *)
Definition YOLO (path : string) : Py YOLOModel :=
  emit (ev_YOLO path) ;;
  λ w, match disk w !! path with
       | Some (Weights clf) =>
           (Ret {| obj_id := next_id w; yolo_weights := clf |},
            set_next_id (S (next_id w)) w)
       | Some _ => (Raise (BackendError "invalid model file"), w)
       | None => (Raise (FileNotFoundError path), w)
       end.

(** [model(source)]: read the image file at [source] and classify it. *)
Definition YOLO_call (model : YOLOModel) (source : string) : Py (list Result) :=
  emit (ev_predict (obj_id model) source) ;;
  λ w, match disk w !! source with
       | Some (ImageFile _ img) => (yolo_weights model img, w)
       | Some _ => (Raise UnidentifiedImageError, w)
       | None => (Raise (FileNotFoundError source), w)
       end.

(** [results[0]] *)
Definition getitem0 (results : list Result) : Py Result :=
  match results with
  | r :: _ => ret r
  | [] => raise IndexError
  end.

(** [tensor.argmax()].  The reduction keeps the entry it holds unless the
    next one is greater, or is a NaN while the held one is not: a NaN counts
    as the greatest value, and among equal entries the first index wins. *)
Definition greater_or_nan (x best : F) : bool :=
  (s_isnan x && negb (s_isnan best)) || s_ltb best x.

Fixpoint argmax_from (best_i : nat) (best : F) (i : nat) (l : list F) : nat :=
  match l with
  | [] => best_i
  | x :: l' =>
      if greater_or_nan x best then argmax_from i x (S i) l'
      else argmax_from best_i best (S i) l'
  end.

Definition argmax (l : list F) : option nat :=
  match l with
  | [] => None
  | x :: l' => Some (argmax_from 0 x 1 l')
  end.

(** [probs.top1 = int(probs.data.argmax())] *)
Definition top1 (probs : option Probs) : Py nat :=
  match probs with
  | None => raise (AttributeError "top1")
  | Some p =>
      match argmax (data p) with
      | Some i => ret i
      | None => raise IndexError   (* argmax of an empty tensor *)
      end
  end.

(** [probs.top1conf.item()], where [top1conf = probs.data[probs.top1]] *)
Definition top1conf_item (probs : option Probs) : Py F :=
  match probs with
  | None => raise (AttributeError "top1conf")
  | Some p =>
      i <- top1 probs ;;
      match data p !! i with
      | Some x => ret x
      | None => raise IndexError
      end
  end.

(** [names[idx]] *)
Definition names_getitem (names : gmap nat string) (idx : nat) : Py string :=
  match names !! idx with
  | Some n => ret n
  | None => raise (KeyError_int idx)
  end.

(** ** Streamlit *)

(** [@st.cache_resource] on a function without arguments: the first call
    that returns stores its value, later calls return the stored value
    without running the function; a call that raises stores nothing. *)
Definition st_cache_resource (func : Py YOLOModel) : Py YOLOModel :=
  λ w, match resource_cache w with
       | Some m => (Ret m, w)
       | None =>
           match func w with
           | (Ret m, w') => (Ret m, set_resource_cache (Some m) w')
           | (Raise e, w') => (Raise e, w')
           end
       end.

Definition st_stop {A} : Py A := raise StopException.

(** ** Globals of the script *)

Definition global_model : Py YOLOModel :=
  λ w, match g_model w with
       | Some m => (Ret m, w)
       | None => (Raise (NameError "model"), w)
       end.

Definition global_rice_consultant : Py (gmap string (gmap string string)) :=
  λ w, match g_rice_consultant w with
       | Some k => (Ret k, w)
       | None => (Raise (NameError "rice_consultant"), w)
       end.

Definition assign_model (m : YOLOModel) : Py unit :=
  λ w, (Ret tt, set_g_model (Some m) w).

Definition assign_rice_consultant (k : gmap string (gmap string string)) : Py unit :=
  λ w, (Ret tt, set_g_rice_consultant (Some k) w).

(** [d[key]] on a dict with string keys *)
Definition dict_getitem (d : gmap string string) (key : string) : Py string :=
  match d !! key with
  | Some v => ret v
  | None => raise (KeyError key)
  end.

(** ** [app.py] *)

(** Lines 11-42: the knowledge base, a dict of dicts. *)
Definition rice_consultant : gmap string (gmap string string) :=
  {[ "Brown Spot" :=
       {[ "type" := "Fungal Infection (Cochliobolus miyabeanus)";
          "cause" := "Often linked to Potassium (K) & Silicon (Si) deficiency.";
          "remedy" := "Spray Propiconazole (1ml/liter).";
          "prevention" := "Boost Potassium (K) to thicken cell walls. Apply Calcium Silicate." ]};
     "Leaf Blast" :=
       {[ "type" := "Fungal Infection (Magnaporthe oryzae)";
          "cause" := "Triggered by Excess Nitrogen (toxic).";
          "remedy" := "Spray Tricyclazole 75 WP.";
          "prevention" := "Avoid excess Urea. Split N application into 3-4 doses." ]};
     "Bacterial Leaf Blight" :=
       {[ "type" := "Bacterial Infection (Xanthomonas oryzae)";
          "cause" := "High Nitrogen + High Humidity.";
          "remedy" := "Drain field. Spray Copper Oxychloride + Streptocycline.";
          "prevention" := "Maintain proper drainage. Avoid late-stage Nitrogen." ]};
     "Tungro" :=
       {[ "type" := "Viral Disease (Vector: Green Leafhopper)";
          "cause" := "Spread by Leafhoppers.";
          "remedy" := "Control vector with Imidacloprid.";
          "prevention" := "Use resistant varieties (like IR36). Synchronous planting." ]};
     "Khaira" :=
       {[ "type" := "Abiotic Stress (Micronutrient Deficiency)";
          "cause" := "Zinc (Zn) Deficiency. Common in high pH soils.";
          "remedy" := "Apply Zinc Sulphate (25kg/ha) + Urea spray.";
          "prevention" := "Basal application of Zinc Sulphate. Green manuring (Dhaincha)." ]} ]}.

(** Lines 50-53. *)
Definition load_model : Py YOLOModel :=
  st_cache_resource (YOLO "best.pt").

(** Lines 67-69, [# Save temp file for YOLO]; the value is [tmp_path]. *)
Definition save_temp_file (image_source : Image) : Py string :=
  tmp_name <- NamedTemporaryFile ".jpg" ;;
  Image_save image_source tmp_name ;;
  ret tmp_name.

(** Lines 76-79, [# Extract Results]; the value is [(pred_name, conf)]. *)
Definition extract_results (results : list Result) : Py (string * F) :=
  r0 <- getitem0 results ;;
  let probs := r_probs r0 in
  top_idx <- top1 probs ;;
  r0' <- getitem0 results ;;
  pred_name <- names_getitem (r_names r0') top_idx ;;
  p <- top1conf_item probs ;;
  let conf := s_mul p s_hundred in
  ret (pred_name, conf).

(** Line 82: [f"**Diagnosis: {pred_name}** ({conf:.1f}%)"]. *)
Definition diagnosis_text (pred_name : string) (conf : F) : list Fragment :=
  [Lit "**Diagnosis: "; Lit pred_name; Lit "** ("; Fixed1 conf; Lit "%)"].

(** Line 93. *)
Definition no_advice : Py unit :=
  emit (st_warning [Lit "No specific advice available."]).

(** Lines 85-93, [# Get Advice]. *)
Definition get_advice (pred_name : string) : Py unit :=
  rc <- global_rice_consultant ;;
  match rc !! pred_name with
  | Some advice =>
      if bool_decide (advice = ∅) then no_advice
      else
        emit (st_expander "📋 View Treatment Plan" true) ;;
        t <- dict_getitem advice "type" ;;
        emit (st_markdown [Lit "**Type:** "; Lit t]) ;;
        c <- dict_getitem advice "cause" ;;
        emit (st_error [Lit "**❌ Root Cause:** "; Lit c]) ;;
        r <- dict_getitem advice "remedy" ;;
        emit (st_success [Lit "**💊 Remedy:** "; Lit r]) ;;
        v <- dict_getitem advice "prevention" ;;
        emit (st_info [Lit "**🛡️ Prevention:** "; Lit v])
  | None => no_advice
  end.

(** Lines 62-93. *)
Definition diagnose (image_source : Image) : Py unit :=
  emit (st_image image_source "Analyzing Leaf...") ;;
  emit (st_spinner "🤖 AI is analyzing symptoms...") ;;
  tmp_path <- save_temp_file image_source ;;
  (* Run Inference *)
  model <- global_model ;;
  results <- YOLO_call model tmp_path ;;
  os_remove tmp_path ;;
  extracted <- extract_results results ;;
  let '(pred_name, conf) := extracted in
  (* Display Diagnosis *)
  emit (st_success (diagnosis_text pred_name conf)) ;;
  get_advice pred_name.

(** What the widgets of one script run return. *)
Record Inputs := {
  cam_img : option UploadedFile;     (* [st.camera_input] *)
  up_file : option UploadedFile;     (* [st.file_uploader] *)
  analyze_clicked : bool;            (* [st.button] *)
}.

(** Lines 55-59, [# --- 4. MODEL LOADING ---]. *)
Definition load_or_stop : Py unit :=
  try_except
    (m <- load_model ;; assign_model m)
    (λ e,
      emit (st_error [Lit "⚠️ Model not found! Please run the 'Move Model' code first."]) ;;
      st_stop).

(** Lines 96-109, [# --- 6. INPUT TABS (Camera vs Upload) ---]. *)
Definition input_tabs (inp : Inputs) : Py unit :=
  emit (st_tabs ["📸 Live Camera"; "📂 Gallery Upload"]) ;;
  emit (st_camera_input "Tap to Snap") ;;
  match cam_img inp with
  | Some f => img <- Image_open f ;; diagnose img
  | None => ret tt
  end ;;
  emit (st_file_uploader "Upload Image" ["jpg"; "png"; "jpeg"]) ;;
  match up_file inp with
  | Some f =>
      img <- Image_open f ;;
      emit (st_button "Analyze Image") ;;
      if analyze_clicked inp then diagnose img else ret tt
  | None => ret tt
  end.

(** Lines 7-109: one run of the script, top to bottom. *)
Definition script (inp : Inputs) : Py unit :=
  emit (st_set_page_config "Rice Doctor AI" "🌾") ;;
  assign_rice_consultant rice_consultant ;;
  emit (st_title "🌾 Rice Doctor AI") ;;
  emit (st_markdown [Lit "**Real-time Diagnostic System**"]) ;;
  emit (st_info [Lit "💡 Point camera at leaf for instant analysis."]) ;;
  load_or_stop ;;
  input_tabs inp.

(** ** The process

    Streamlit runs the script once per interaction, each run in a fresh
    namespace; the disk, the resource cache and object identities belong
    to the process and outlive the runs. *)

Definition boot (d : gmap string File) (r : list (list nat)) : World :=
  {| disk := d; rng := r; resource_cache := None; next_id := 0;
     g_rice_consultant := None; g_model := None; trace := [] |}.

Definition fresh_namespace (w : World) : World :=
  set_g_model None (set_g_rice_consultant None w).

Definition rerun (inp : Inputs) (w : World) : Res unit * World :=
  script inp (fresh_namespace w).

Fixpoint session (runs : list Inputs) (w : World) : list (Res unit) * World :=
  match runs with
  | [] => ([], w)
  | inp :: rest =>
      let '(r, w') := rerun inp w in
      let '(rs, w'') := session rest w' in
      (r :: rs, w'')
  end.

(** ** Vocabulary of the statements *)

(** What [diagnose] renders before it stages the image (lines 63-65). *)
Definition analyzing (im : Image) : list Event :=
  [st_image im "Analyzing Leaf..."; st_spinner "🤖 AI is analyzing symptoms..."].

(** The treatment plan as lines 87-91 render it. *)
Definition treatment_plan (t c r v : string) : list Event :=
  [st_expander "📋 View Treatment Plan" true;
   st_markdown [Lit "**Type:** "; Lit t];
   st_error [Lit "**❌ Root Cause:** "; Lit c];
   st_success [Lit "**💊 Remedy:** "; Lit r];
   st_info [Lit "**🛡️ Prevention:** "; Lit v]].

(** What a run renders up to the failed load and the stop (lines 8-58). *)
Definition model_not_found : list Event :=
  [st_set_page_config "Rice Doctor AI" "🌾";
   st_title "🌾 Rice Doctor AI";
   st_markdown [Lit "**Real-time Diagnostic System**"];
   st_info [Lit "💡 Point camera at leaf for instant analysis."];
   ev_YOLO "best.pt";
   st_error [Lit "⚠️ Model not found! Please run the 'Move Model' code first."]].

Definition is_predict (e : Event) : bool :=
  match e with
  | ev_predict _ _ => true
  | _ => false
  end.

(** The fallback of line 93. *)
Definition advice_unavailable : list Event :=
  [st_warning [Lit "No specific advice available."]].

(** The result list of a backend call that assigns the classes and
    probabilities [dist]: class [i] is named [(dist !! i).1] and has
    probability [(dist !! i).2]. *)
Definition results_of (dist : list (string * F)) : list Result :=
  [ {| r_probs := Some {| data := dist.*2 |}; r_names := map_seq 0 (dist.*1) |} ].

(** [preserves f c]: running [c] does not change the observation [f] of
    the world, whether [c] returns or raises. *)
Definition preserves {X A} (f : World → X) (c : Py A) : Prop :=
  ∀ w, f (c w).2 = f w.

(** Observations that look at neither the disk, the random draws nor the
    trace: the cache, the globals, the object counter. *)
Record Quiet {X} (f : World → X) : Prop := {
  quiet_disk : ∀ d w, f (set_disk d w) = f w;
  quiet_rng : ∀ r w, f (set_rng r w) = f w;
  quiet_trace : ∀ t w, f (set_trace t w) = f w;
}.

(** ** Sample inputs *)

Definition leaf : Image :=
  {| im_format := Some JPEG; im_mode := M_RGB; im_pixels := [] |}.

(** A photo saved as PNG with an alpha channel. *)
Definition png_with_alpha : UploadedFile :=
  {| upload_name := "leaf.png";
     upload_content :=
       ImageFile PNG {| im_format := Some PNG; im_mode := M_RGBA; im_pixels := [] |} |}.

(** A classifier that answers [dist] for every image, one that fails. *)
Definition answers (dist : list (string * F)) : Classifier :=
  λ _, Ret (results_of dist).

Definition fails : Classifier :=
  λ _, Raise (BackendError "inference failed").

(** The world of a run that has loaded [clf] and reached the input tabs. *)
Definition serving (clf : Classifier) : World :=
  {| disk := {[ "best.pt" := Weights clf ]};
     rng := [[0; 1; 2; 3; 4; 5; 6; 7]];
     resource_cache := Some {| obj_id := 0; yolo_weights := clf |};
     next_id := 1;
     g_rice_consultant := Some rice_consultant;
     g_model := Some {| obj_id := 0; yolo_weights := clf |};
     trace := [] |}.

End Program.

(** ** Sample distributions *)

(** [[("Leaf Blast", 0.87), ("Brown Spot", 0.09), ("Tungro", 0.04)]], each
    probability the binary64 number that Python reads the literal as. *)
Definition leaf_blast_distribution : list (string * float) :=
  [("Leaf Blast", 0x1.bd70a3d70a3d7p-1%float);
   ("Brown Spot", 0x1.70a3d70a3d70ap-4%float);
   ("Tungro", 0x1.47ae147ae147bp-5%float)].

(** A model class the knowledge base has no entry for comes first. *)
Definition healthy_distribution : list (string * float) :=
  [("Healthy", 0.75%float); ("Leaf Blast", 0.25%float)].

(** A distribution with an undefined entry, as a backend computing with
    overflowed logits returns it. *)
Definition undefined_distribution : list (string * float) :=
  [("Leaf Blast", 0.5%float); ("Brown Spot", nan); ("Tungro", 0.75%float)].

(** A probability, in binary64: a number between 0 and 1. *)
Definition probability (x : float) : Prop :=
  (0 <=? x)%float = true ∧ (x <=? 1)%float = true.

(** ** Sample interactions *)

(** A run in which the user touches no widget. *)
Definition idle {F : Type} : @Inputs F :=
  {| cam_img := None; up_file := None; analyze_clicked := false |}.

(** A run in which the camera widget holds a photo. *)
Definition snapshot {F : Type} : @Inputs F :=
  {| cam_img := Some {| upload_name := "camera.jpg"; upload_content := ImageFile JPEG leaf |};
     up_file := None; analyze_clicked := false |}.

(** ** Vocabulary of the further properties *)

Definition is_YOLO {F : Type} (e : @Event F) : bool :=
  match e with
  | ev_YOLO _ => true
  | _ => false
  end.

(** A Streamlit element, as opposed to a call of the backend. *)
Definition is_rendering {F : Type} (e : @Event F) : bool :=
  match e with
  | ev_YOLO _ | ev_predict _ _ => false
  | _ => true
  end.

(** [appends Q c]: running [c] keeps the trace it finds and adds events
    that satisfy [Q], whether [c] returns or raises. *)
Definition appends {F A : Type} (Q : @Event F → Prop) (c : @Py F A) : Prop :=
  ∀ w, ∃ es, trace (c w).2 = (trace w ++ es)%list ∧ Forall Q es.

(** What a run renders before it loads the model (lines 8-47). *)
Definition page_header {F : Type} : list (@Event F) :=
  [st_set_page_config "Rice Doctor AI" "🌾";
   st_title "🌾 Rice Doctor AI";
   st_markdown [Lit "**Real-time Diagnostic System**"];
   st_info [Lit "💡 Point camera at leaf for instant analysis."]].

(** The widgets of the two tabs (lines 96, 99, 105). *)
Definition tab_widgets {F : Type} : list (@Event F) :=
  [st_tabs ["📸 Live Camera"; "📂 Gallery Upload"];
   st_camera_input "Tap to Snap";
   st_file_uploader "Upload Image" ["jpg"; "png"; "jpeg"]].

(** * Facts *)

(** ** Temporary paths end in the suffix asked for *)

Lemma append_cons (c : ascii) (a b : string) : String c a +:+ b = String c (a +:+ b).
Proof. reflexivity. Qed.

Lemma append_nil (b : string) : "" +:+ b = b.
Proof. reflexivity. Qed.

Lemma has_sep_app (a b : string) : has_sep (a +:+ b) = has_sep a || has_sep b.
Proof.
  induction a as [|c a IH]; [done|].
  rewrite append_cons. cbn [has_sep]. rewrite IH. by rewrite orb_assoc.
Qed.

Lemma tempfile_characters_no_sep (c : ascii) :
  c ∈ tempfile_characters → is_sep c = false.
Proof.
  revert c. apply Forall_forall. vm_compute.
  repeat constructor.
Qed.

Lemma random_name_no_sep (draws : list nat) : has_sep (random_name draws) = false.
Proof.
  unfold random_name.
  induction draws as [|i draws IH]; [done|].
  cbn [map string_of_list_ascii has_sep]. rewrite IH, orb_false_r.
  apply tempfile_characters_no_sep, list_elem_of_In, nth_In.
  apply Nat.mod_upper_bound. by vm_compute.
Qed.

Lemma last_ext_app_jpg (s : string) : last_ext (s +:+ ".jpg") = ".jpg".
Proof.
  induction s as [|c s IH]; [done|].
  rewrite append_cons. cbn [last_ext]. by rewrite IH.
Qed.

Lemma splitext_temp_path (draws : list nat) :
  splitext_ext (temp_path ".jpg" draws) = ".jpg".
Proof.
  unfold splitext_ext, temp_path, gettempdir, tempfile_prefix.
  rewrite !append_cons, !append_nil.
  assert (Hs : has_sep (random_name draws +:+ ".jpg") = false).
  { by rewrite has_sep_app, random_name_no_sep. }
  cbn. rewrite Hs. cbn.
  apply (last_ext_app_jpg (String "t" (String "m" (String "p" (random_name draws))))).
Qed.

(** The staged file is written as JPEG whatever name is drawn. *)
Lemma temp_path_format (draws : list nat) :
  EXTENSION (lower (splitext_ext (temp_path ".jpg" draws))) = Some JPEG.
Proof. by rewrite splitext_temp_path. Qed.

Section Facts.

Context {F : Type} `{Scalar F}.

Local Abbreviation World := (@World F) (only parsing).
Local Abbreviation Py := (@Py F) (only parsing).

Implicit Types (w : World) (im : Image) (d : gmap string (@File F)).

(** ** Worlds *)

Lemma World_eq w1 w2 :
  disk w1 = disk w2 → rng w1 = rng w2 →
  resource_cache w1 = resource_cache w2 → next_id w1 = next_id w2 →
  g_rice_consultant w1 = g_rice_consultant w2 → g_model w1 = g_model w2 →
  trace w1 = trace w2 → w1 = w2.
Proof. destruct w1, w2; simpl; intros; by subst. Qed.

(** ** Running a sequence *)

Lemma bind_Ret {A B} (c : Py A) (k : A → Py B) w a w' :
  c w = (Ret a, w') → bind c k w = k a w'.
Proof. unfold bind. by intros ->. Qed.

Lemma bind_Raise {A B} (c : Py A) (k : A → Py B) w e w' :
  c w = (Raise e, w') → bind c k w = (Raise e, w').
Proof. unfold bind. by intros ->. Qed.

(** ** Frames: what a statement leaves alone *)

Lemma Quiet_resource_cache : Quiet (@resource_cache F).
Proof. by split. Qed.

Lemma Quiet_g_model : Quiet (@g_model F).
Proof. by split. Qed.

Lemma Quiet_g_rice_consultant : Quiet (@g_rice_consultant F).
Proof. by split. Qed.

Lemma Quiet_next_id : Quiet (@next_id F).
Proof. by split. Qed.

Lemma preserves_ret {X A} (f : World → X) (a : A) : preserves f (ret a).
Proof. by intros w. Qed.

Lemma preserves_raise {X A} (f : World → X) (e : Exn) : preserves f (raise (A:=A) e).
Proof. by intros w. Qed.

Lemma preserves_bind {X A B} (f : World → X) (c : Py A) (k : A → Py B) :
  preserves f c → (∀ a, preserves f (k a)) → preserves f (bind c k).
Proof.
  intros Hc Hk w. unfold bind. specialize (Hc w).
  destruct (c w) as [[a|e] w']; simpl in *; [|done].
  by rewrite Hk.
Qed.

Section TraceBlind.

Context {X : Type} (f : World → X) (Hf : ∀ t w, f (set_trace t w) = f w).

Lemma preserves_emit (e : Event) : preserves f (emit e).
Proof. intros w. apply Hf. Qed.

Lemma preserves_YOLO_call (m : YOLOModel) (source : string) :
  preserves f (YOLO_call m source).
Proof.
  apply preserves_bind; [apply preserves_emit|].
  intros _ w. by repeat case_match.
Qed.

Lemma preserves_global_model : preserves f global_model.
Proof. intros w. unfold global_model. by destruct (g_model w). Qed.

Lemma preserves_global_rice_consultant : preserves f global_rice_consultant.
Proof. intros w. unfold global_rice_consultant. by destruct (g_rice_consultant w). Qed.

Lemma preserves_getitem0 (results : list Result) : preserves f (getitem0 results).
Proof. intros w. by destruct results. Qed.

Lemma preserves_top1 (probs : option Probs) : preserves f (top1 probs).
Proof. intros w. unfold top1. by repeat case_match. Qed.

Lemma preserves_top1conf_item (probs : option Probs) : preserves f (top1conf_item probs).
Proof.
  destruct probs as [p|]; [|by intros w].
  apply preserves_bind; [apply preserves_top1|].
  intros i w. by case_match.
Qed.

Lemma preserves_names_getitem (names : gmap nat string) (idx : nat) :
  preserves f (names_getitem names idx).
Proof. intros w. unfold names_getitem. by case_match. Qed.

Lemma preserves_dict_getitem (dict : gmap string string) (key : string) :
  preserves f (dict_getitem dict key).
Proof. intros w. unfold dict_getitem. by case_match. Qed.

Lemma preserves_extract_results (results : list Result) :
  preserves f (extract_results results).
Proof.
  apply preserves_bind; [apply preserves_getitem0|]. intros r0.
  apply preserves_bind; [apply preserves_top1|]. intros i.
  apply preserves_bind; [apply preserves_getitem0|]. intros r0'.
  apply preserves_bind; [apply preserves_names_getitem|]. intros n.
  apply preserves_bind; [apply preserves_top1conf_item|]. intros p.
  apply preserves_ret.
Qed.

Lemma preserves_get_advice (pred_name : string) : preserves f (get_advice pred_name).
Proof.
  apply preserves_bind; [apply preserves_global_rice_consultant|]. intros rc.
  destruct (rc !! pred_name) as [advice|]; [|apply preserves_emit].
  case_bool_decide; [apply preserves_emit|].
  repeat (apply preserves_bind;
          [first [apply preserves_emit | apply preserves_dict_getitem]|]; intros ?).
  apply preserves_emit.
Qed.

End TraceBlind.

Section Quiet.

Context {X : Type} (f : World → X) (Hf : Quiet f).

Lemma preserves_NamedTemporaryFile (suffix : string) :
  preserves f (NamedTemporaryFile suffix).
Proof.
  intros w. unfold NamedTemporaryFile.
  destruct (mkstemp_inner _ _ _) as [[path rest]|]; simpl.
  - by rewrite (quiet_rng f Hf), (quiet_disk f Hf).
  - by rewrite (quiet_rng f Hf).
Qed.

Lemma preserves_Image_save im (filename : string) :
  preserves f (Image_save im filename).
Proof.
  intros w. unfold Image_save.
  destruct (EXTENSION _); [|done].
  destruct (can_write _ _); simpl.
  - by rewrite (quiet_disk f Hf).
  - destruct (disk w !! filename); [|done]. by rewrite (quiet_disk f Hf).
Qed.

Lemma preserves_os_remove (path : string) : preserves f (os_remove path).
Proof.
  intros w. unfold os_remove.
  destruct (disk w !! path); [|done]. apply (quiet_disk f Hf).
Qed.

Lemma preserves_save_temp_file im : preserves f (save_temp_file im).
Proof.
  apply preserves_bind; [apply preserves_NamedTemporaryFile|]. intros p.
  apply preserves_bind; [apply preserves_Image_save|]. intros _.
  apply preserves_ret.
Qed.

(** A call to [diagnose], on whichever path it ends, leaves every quiet
    observation as it found it. *)
Lemma preserves_diagnose im : preserves f (diagnose im).
Proof.
  pose proof (quiet_trace f Hf) as Ht.
  apply preserves_bind; [by apply preserves_emit|]. intros _.
  apply preserves_bind; [by apply preserves_emit|]. intros _.
  apply preserves_bind; [apply preserves_save_temp_file|]. intros tmp_path.
  apply preserves_bind; [by apply preserves_global_model|]. intros m.
  apply preserves_bind; [by apply preserves_YOLO_call|]. intros results.
  apply preserves_bind; [apply preserves_os_remove|]. intros _.
  apply preserves_bind; [by apply preserves_extract_results|]. intros [pred_name conf].
  apply preserves_bind; [by apply preserves_emit|]. intros _.
  by apply preserves_get_advice.
Qed.

End Quiet.

(** ** Staging *)

Lemma mkstemp_inner_Some d (suffix : string) (draws : list (list nat)) path rest :
  mkstemp_inner d suffix draws = Some (path, rest) →
  d !! path = None ∧ ∃ n, n ∈ draws ∧ path = temp_path suffix n.
Proof.
  induction draws as [|a draws IH]; simpl; [done|].
  destruct (d !! temp_path suffix a) eqn:E.
  - intros Hm. destruct (IH Hm) as (Hp & n & Hn & ->).
    split; [done|]. exists n. split; [by right|done].
  - intros [= <- <-]. split; [done|]. exists a. split; [by left|done].
Qed.

Lemma save_temp_file_written w im path rest :
  mkstemp_inner (disk w) ".jpg" (rng w) = Some (path, rest) →
  can_write JPEG (im_mode im) = true →
  save_temp_file im w
  = (Ret path, set_rng rest (set_disk (<[path := ImageFile JPEG im]> (disk w)) w)).
Proof.
  intros Hm Hcw. destruct (mkstemp_inner_Some _ _ _ _ _ Hm) as (_ & n & _ & Hp).
  unfold save_temp_file, bind, NamedTemporaryFile, Image_save, ret.
  rewrite Hm. rewrite Hp, temp_path_format, Hcw, <-Hp. f_equal.
  apply World_eq; simpl; try done. apply insert_insert_eq.
Qed.

Lemma save_temp_file_refused w im path rest :
  mkstemp_inner (disk w) ".jpg" (rng w) = Some (path, rest) →
  can_write JPEG (im_mode im) = false →
  save_temp_file im w
  = (Raise (cannot_write JPEG (im_mode im)),
     set_rng rest (set_disk (<[path := Empty]> (disk w)) w)).
Proof.
  intros Hm Hcw. destruct (mkstemp_inner_Some _ _ _ _ _ Hm) as (_ & n & _ & Hp).
  unfold save_temp_file, bind, NamedTemporaryFile, Image_save, ret.
  rewrite Hm. rewrite Hp, temp_path_format, Hcw, <-Hp. f_equal.
  cbn. rewrite lookup_insert_eq.
  apply World_eq; simpl; try done. apply insert_insert_eq.
Qed.

Lemma save_temp_file_exhausted w im :
  mkstemp_inner (disk w) ".jpg" (rng w) = None →
  save_temp_file im w = (Raise FileExistsError, set_rng [] w).
Proof.
  intros Hm. unfold save_temp_file, bind, NamedTemporaryFile. by rewrite Hm.
Qed.

(** ** The paths through [diagnose] *)

(** No free name is drawn: nothing is staged. *)
Lemma diagnose_no_name w im :
  mkstemp_inner (disk w) ".jpg" (rng w) = None →
  diagnose im w
  = (Raise FileExistsError, set_trace (trace w ++ analyzing im) (set_rng [] w)).
Proof.
  intros Hm. unfold diagnose. cbn.
  erewrite bind_Raise; [|by apply save_temp_file_exhausted].
  f_equal. apply World_eq; simpl; try done. by rewrite <-app_assoc.
Qed.

(** The writer refuses the mode: [diagnose] raises out of the staging
    step, the backend is not called, the empty file stays. *)
Lemma diagnose_staging_refused w im path rest :
  mkstemp_inner (disk w) ".jpg" (rng w) = Some (path, rest) →
  can_write JPEG (im_mode im) = false →
  diagnose im w
  = (Raise (cannot_write JPEG (im_mode im)),
     set_trace (trace w ++ analyzing im)
       (set_rng rest (set_disk (<[path := Empty]> (disk w)) w))).
Proof.
  intros Hm Hcw. unfold diagnose. cbn.
  erewrite bind_Raise; [|by apply save_temp_file_refused].
  f_equal. apply World_eq; simpl; try done. by rewrite <-app_assoc.
Qed.

(** The backend raises: the exception leaves [diagnose] before
    [os.remove] is reached, the staged file stays. *)
Lemma diagnose_inference_raises w im path rest m e :
  mkstemp_inner (disk w) ".jpg" (rng w) = Some (path, rest) →
  can_write JPEG (im_mode im) = true →
  g_model w = Some m →
  yolo_weights m im = Raise e →
  diagnose im w
  = (Raise e,
     set_trace (trace w ++ analyzing im ++ [ev_predict (obj_id m) path])
       (set_rng rest (set_disk (<[path := ImageFile JPEG im]> (disk w)) w))).
Proof.
  intros Hm Hcw Hg Hy. unfold diagnose. cbn.
  erewrite bind_Ret; [|by apply save_temp_file_written].
  unfold bind at 1, global_model at 1. cbn. rewrite Hg.
  unfold bind at 1, YOLO_call at 1. cbn. rewrite lookup_insert_eq, Hy.
  f_equal. apply World_eq; simpl; try done. by rewrite <-!app_assoc.
Qed.

(** The backend returns: the staged file is removed, and the rest of
    [diagnose] runs on a disk that equals the one the call started on. *)
Lemma diagnose_inferred w im path rest m results :
  mkstemp_inner (disk w) ".jpg" (rng w) = Some (path, rest) →
  can_write JPEG (im_mode im) = true →
  g_model w = Some m →
  yolo_weights m im = Ret results →
  diagnose im w
  = bind (extract_results results)
      (λ '(pred_name, conf),
        bind (emit (st_success (diagnosis_text pred_name conf)))
          (λ _, get_advice pred_name))
      (set_trace (trace w ++ analyzing im ++ [ev_predict (obj_id m) path])
         (set_rng rest w)).
Proof.
  intros Hm Hcw Hg Hy. unfold diagnose. cbn.
  erewrite bind_Ret; [|by apply save_temp_file_written].
  unfold bind at 1, global_model at 1. cbn. rewrite Hg.
  unfold bind at 1, YOLO_call at 1. cbn. rewrite lookup_insert_eq, Hy.
  unfold bind at 1, os_remove at 1. cbn. rewrite lookup_insert_eq.
  f_equal. apply World_eq; simpl; try done.
  - apply delete_insert_id. by destruct (mkstemp_inner_Some _ _ _ _ _ Hm).
  - by rewrite <-!app_assoc.
Qed.

(** ** Extraction and advice *)

Lemma extract_results_Ret (r : Result) (rs : list Result) (p : Probs)
    (i : nat) (name : string) (x : F) w :
  r_probs r = Some p → argmax (data p) = Some i →
  r_names r !! i = Some name → data p !! i = Some x →
  extract_results (r :: rs) w = (Ret (name, s_mul x s_hundred), w).
Proof.
  intros Hp Ha Hn Hx. unfold extract_results. cbn.
  rewrite Hp. unfold bind, top1conf_item, top1, names_getitem, bind.
  cbn. rewrite Ha. cbn. rewrite Hn. cbn. by rewrite Hx.
Qed.

Lemma get_advice_absent w (kb : gmap string (gmap string string)) (name : string) :
  g_rice_consultant w = Some kb → kb !! name = None →
  get_advice name w = (Ret tt, set_trace (trace w ++ advice_unavailable) w).
Proof.
  intros Hg Hk. unfold get_advice, bind, global_rice_consultant.
  by rewrite Hg, Hk.
Qed.

Lemma get_advice_found w (kb : gmap string (gmap string string)) (name : string)
    (t c r v : string) :
  g_rice_consultant w = Some kb →
  kb !! name ≫= (.!! "type") = Some t →
  kb !! name ≫= (.!! "cause") = Some c →
  kb !! name ≫= (.!! "remedy") = Some r →
  kb !! name ≫= (.!! "prevention") = Some v →
  get_advice name w = (Ret tt, set_trace (trace w ++ treatment_plan t c r v) w).
Proof.
  intros Hg Ht Hc Hr Hv. unfold get_advice, bind, global_rice_consultant.
  rewrite Hg. destruct (kb !! name) as [advice|]; [|done].
  cbn in Ht, Hc, Hr, Hv.
  rewrite bool_decide_eq_false_2; [|by intros ->].
  unfold dict_getitem. cbn. rewrite Ht. cbn. rewrite Hc. cbn. rewrite Hr. cbn.
  rewrite Hv. unfold emit. cbn. f_equal.
  apply World_eq; simpl; try done. by rewrite <-!app_assoc.
Qed.

(** ** The top-1 entry *)

Lemma argmax_is_Some (l : list F) : l ≠ [] → is_Some (argmax l).
Proof. destruct l; [done|]. by eexists. Qed.

(** ** The rest of the script *)

Lemma preserves_Image_open {X} (f : World → X) (fp : UploadedFile) :
  preserves f (Image_open fp).
Proof. intros w. unfold Image_open. by case_match. Qed.

Lemma preserves_input_tabs {X} (f : World → X) (inp : Inputs) :
  Quiet f → preserves f (input_tabs inp).
Proof.
  intros Hf. pose proof (quiet_trace f Hf) as Ht.
  apply preserves_bind; [by apply preserves_emit|]. intros _.
  apply preserves_bind; [by apply preserves_emit|]. intros _.
  apply preserves_bind.
  { destruct (cam_img inp); [|apply preserves_ret].
    apply preserves_bind; [apply preserves_Image_open|]. intros img.
    by apply preserves_diagnose. }
  intros _. apply preserves_bind; [by apply preserves_emit|]. intros _.
  destruct (up_file inp); [|apply preserves_ret].
  apply preserves_bind; [apply preserves_Image_open|]. intros img.
  apply preserves_bind; [by apply preserves_emit|]. intros _.
  destruct (analyze_clicked inp); [|apply preserves_ret].
  by apply preserves_diagnose.
Qed.

(** After the backend has returned, whatever happens next, the disk is
    the one [diagnose] started on: the staged file is gone. *)
Lemma diagnose_inferred_disk w im path rest m results :
  mkstemp_inner (disk w) ".jpg" (rng w) = Some (path, rest) →
  can_write JPEG (im_mode im) = true →
  g_model w = Some m →
  yolo_weights m im = Ret results →
  disk (diagnose im w).2 = disk w.
Proof.
  intros Hm Hcw Hg Hy.
  rewrite (diagnose_inferred w im path rest m results) by done.
  assert (Ht : ∀ t w0, disk (set_trace t w0) = disk w0) by done.
  match goal with |- disk (bind ?c ?k ?w0).2 = _ =>
    change (disk w) with (disk w0); generalize w0 end.
  apply preserves_bind; [by apply preserves_extract_results|].
  intros [pred_name conf].
  apply preserves_bind; [by apply preserves_emit|]. intros _.
  by apply preserves_get_advice.
Qed.

(** ** Loading the model *)

Lemma load_model_cached w (m : YOLOModel) :
  resource_cache w = Some m → load_model w = (Ret m, w).
Proof. intros Hc. unfold load_model, st_cache_resource. by rewrite Hc. Qed.

Lemma load_model_first w (clf : Classifier) :
  resource_cache w = None → disk w !! "best.pt" = Some (Weights clf) →
  load_model w
  = (Ret {| obj_id := next_id w; yolo_weights := clf |},
     set_resource_cache (Some {| obj_id := next_id w; yolo_weights := clf |})
       (set_next_id (S (next_id w))
          (set_trace (trace w ++ [ev_YOLO "best.pt"]) w))).
Proof.
  intros Hc Hd. unfold load_model, st_cache_resource. rewrite Hc.
  unfold YOLO, bind, emit. cbn. by rewrite Hd.
Qed.

Lemma load_model_fails w :
  resource_cache w = None → (∀ clf, disk w !! "best.pt" ≠ Some (Weights clf)) →
  ∃ e, is_Exception e = true
       ∧ load_model w = (Raise e, set_trace (trace w ++ [ev_YOLO "best.pt"]) w).
Proof.
  intros Hc Hd. unfold load_model, st_cache_resource. rewrite Hc.
  unfold YOLO, bind, emit. cbn.
  destruct (disk w !! "best.pt") as [[| | clf |]|] eqn:E;
    try (by eexists; split; [|reflexivity]).
  by destruct (Hd clf).
Qed.

(** With the model in the cache, a run binds [model] to it and goes on
    to the input tabs; no model is constructed. *)
Lemma script_cached (inp : Inputs) w (m : YOLOModel) :
  resource_cache w = Some m →
  script inp w
  = input_tabs inp
      (set_g_model (Some m)
         (set_g_rice_consultant (Some rice_consultant)
            (set_trace
               (trace w ++ [st_set_page_config "Rice Doctor AI" "🌾";
                            st_title "🌾 Rice Doctor AI";
                            st_markdown [Lit "**Real-time Diagnostic System**"];
                            st_info [Lit "💡 Point camera at leaf for instant analysis."]])
               w))).
Proof.
  intros Hc. unfold script. cbn.
  unfold bind at 1, load_or_stop at 1, try_except.
  erewrite bind_Ret; [|by apply load_model_cached].
  cbn. f_equal. apply World_eq; simpl; try done. by rewrite <-!app_assoc.
Qed.

(** The cache entry, once there, outlives every run of the script. *)
Lemma script_keeps_cache (inp : Inputs) w (m : YOLOModel) :
  resource_cache w = Some m → resource_cache (script inp w).2 = Some m.
Proof.
  intros Hc. rewrite (script_cached inp w m Hc).
  by rewrite (preserves_input_tabs resource_cache inp Quiet_resource_cache).
Qed.

Lemma session_keeps_cache (runs : list Inputs) w (m : YOLOModel) :
  resource_cache w = Some m → resource_cache (session runs w).2 = Some m.
Proof.
  revert w. induction runs as [|inp runs IH]; intros w Hc; [done|].
  cbn [session]. unfold rerun.
  pose proof (script_keeps_cache inp (fresh_namespace w) m Hc) as Hs.
  destruct (script inp (fresh_namespace w)) as [r w1].
  specialize (IH w1 Hs). by destruct (session runs w1).
Qed.

(** Without a loadable artifact a run stops at line 59. *)
Lemma script_stops (inp : Inputs) w :
  resource_cache w = None → (∀ clf, disk w !! "best.pt" ≠ Some (Weights clf)) →
  script inp w
  = (Raise StopException,
     set_g_rice_consultant (Some rice_consultant)
       (set_trace (trace w ++ model_not_found) w)).
Proof.
  intros Hc Hd. unfold script. cbn.
  unfold bind at 1, load_or_stop at 1, try_except.
  edestruct (load_model_fails
               (set_trace (trace w ++ [st_set_page_config "Rice Doctor AI" "🌾";
                            st_title "🌾 Rice Doctor AI";
                            st_markdown [Lit "**Real-time Diagnostic System**"];
                            st_info [Lit "💡 Point camera at leaf for instant analysis."]])
                  (set_g_rice_consultant (Some rice_consultant) w)))
    as (e & He & Hl); [done..|].
  erewrite bind_Raise.
  2:{ etransitivity; [|exact Hl]. f_equal.
      apply World_eq; simpl; try done. by rewrite <-!app_assoc. }
  rewrite He. cbn. f_equal.
  apply World_eq; simpl; try done. by rewrite <-!app_assoc.
Qed.

(** ** From the backend's answer to the rendered diagnosis *)

(** The extraction reads the results only. *)
Lemma extract_results_pure (results : list Result) w w0 :
  extract_results results w = ((extract_results results w0).1, w).
Proof.
  unfold extract_results, top1conf_item, top1, names_getitem.
  destruct results as [|r rs]; [done|]. cbn.
  destruct (r_probs r) as [p|]; [|done]. cbn.
  destruct (argmax (data p)) as [i|]; [|done]. cbn.
  destruct (r_names r !! i) as [name|]; [|done]. cbn.
  unfold bind. cbn.
  by destruct (data p !! i).
Qed.

(** The backend returns and the extraction yields [(label, conf)]: this
    pair is rendered as it is, and the advice for [label] follows. *)
Lemma diagnose_diagnosed w im path rest m results (label : string) (conf : F) :
  mkstemp_inner (disk w) ".jpg" (rng w) = Some (path, rest) →
  can_write JPEG (im_mode im) = true →
  g_model w = Some m →
  yolo_weights m im = Ret results →
  (extract_results results w).1 = Ret (label, conf) →
  diagnose im w
  = get_advice label
      (set_trace
         (trace w ++ analyzing im
            ++ [ev_predict (obj_id m) path; st_success (diagnosis_text label conf)])
         (set_rng rest w)).
Proof.
  intros Hm Hcw Hg Hy He.
  rewrite (diagnose_inferred w im path rest m results) by done.
  unfold bind at 1. rewrite (extract_results_pure results _ w), He.
  cbn. f_equal. apply World_eq; simpl; try done. by rewrite <-!app_assoc.
Qed.

End Facts.

(** * Binary64 arithmetic on probabilities

    [argmax] compares binary64 numbers and line 79 multiplies one by
    [100.0].  The facts below are derived from the bit-level specification
    of these operations ([SpecFloat]), to which [FloatAxioms] relates the
    primitive floats: comparison is exact, multiplication rounds to
    nearest, ties to even. *)

Section Binary64.

Local Open Scope Z_scope.

(** ** Sizes and shifts *)

Lemma digits2_pos_size (p : positive) : digits2_pos p = Pos.size p.
Proof. induction p as [p IH|p IH|]; simpl; congruence. Qed.

Lemma Zpos_size_lt (p : positive) : Zpos p < 2 ^ Zpos (Pos.size p).
Proof.
  pose proof (Pos.size_gt p) as Hp.
  apply Pos2Z.pos_lt_pos in Hp. by rewrite Pos2Z.inj_pow in Hp.
Qed.

Lemma Zpos_size_ge (p : positive) : 2 ^ (Zpos (Pos.size p) - 1) <= Zpos p.
Proof.
  pose proof (Pos.size_le p) as Hp.
  apply Pos2Z.pos_le_pos in Hp. rewrite Pos2Z.inj_pow in Hp.
  change (Z.pos p~0) with (2 * Z.pos p) in Hp.
  replace (Zpos (Pos.size p)) with (Z.succ (Zpos (Pos.size p) - 1)) in Hp by lia.
  rewrite Z.pow_succ_r in Hp by lia. lia.
Qed.

Lemma size_le_of_lt (p : positive) (k : Z) :
  Zpos p < 2 ^ k → Zpos (Pos.size p) <= k.
Proof.
  intros Hp. destruct (Z.le_gt_cases (Zpos (Pos.size p)) k) as [|Hk]; [done|].
  pose proof (Zpos_size_ge p) as Hge.
  assert (2 ^ k <= 2 ^ (Zpos (Pos.size p) - 1)).
  { destruct (Z.lt_ge_cases k 0) as [Hn|Hn].
    - rewrite (Z.pow_neg_r 2 k Hn). apply Z.pow_nonneg. lia.
    - apply Z.pow_le_mono_r; lia. }
  lia.
Qed.

Lemma size_gt_of_ge (p : positive) (k : Z) :
  2 ^ k <= Zpos p → k < Zpos (Pos.size p).
Proof.
  intros Hp. destruct (Z.lt_ge_cases k (Zpos (Pos.size p))) as [|Hk]; [done|].
  pose proof (Zpos_size_lt p) as Hlt.
  assert (2 ^ Zpos (Pos.size p) <= 2 ^ k) by (apply Z.pow_le_mono_r; lia).
  lia.
Qed.

(** ** Shifting right *)

Lemma shr_1_m (mrs : shr_record) :
  0 <= shr_m mrs → shr_m (shr_1 mrs) = shr_m mrs / 2.
Proof.
  destruct mrs as [m r s]. cbn [shr_m]. intros Hm.
  rewrite <-Z.div2_div.
  destruct m as [|[p|p|]|p]; try reflexivity. lia.
Qed.

Lemma pow2_xO (p : positive) : 2 ^ Z.pos p~0 = 2 ^ Z.pos p * 2 ^ Z.pos p.
Proof.
  replace (Z.pos p~0) with (Z.pos p + Z.pos p) by lia.
  by rewrite Z.pow_add_r by lia.
Qed.

Lemma pow2_xI (p : positive) : 2 ^ Z.pos p~1 = 2 * (2 ^ Z.pos p * 2 ^ Z.pos p).
Proof.
  replace (Z.pos p~1) with (1 + (Z.pos p + Z.pos p)) by lia.
  by rewrite !Z.pow_add_r by lia.
Qed.

Lemma iter_shr_1_m (p : positive) (mrs : shr_record) :
  0 <= shr_m mrs →
  shr_m (SpecFloat.iter_pos shr_1 p mrs) = shr_m mrs / 2 ^ Zpos p.
Proof.
  revert mrs. induction p as [p IH|p IH|]; intros mrs Hm; cbn [SpecFloat.iter_pos].
  - assert (H1 : 0 <= shr_m (shr_1 mrs))
      by (rewrite shr_1_m by done; apply Z.div_pos; lia).
    assert (H2 : 0 <= shr_m (SpecFloat.iter_pos shr_1 p (shr_1 mrs)))
      by (rewrite IH by done; apply Z.div_pos; [done|apply Z.pow_pos_nonneg; lia]).
    rewrite IH, IH, shr_1_m by done.
    assert (0 < 2 ^ Z.pos p) by (apply Z.pow_pos_nonneg; lia).
    rewrite !Z.div_div by lia.
    by rewrite pow2_xI, Z.mul_assoc.
  - assert (H2 : 0 <= shr_m (SpecFloat.iter_pos shr_1 p mrs))
      by (rewrite IH by done; apply Z.div_pos; [done|apply Z.pow_pos_nonneg; lia]).
    rewrite IH, IH by done.
    assert (0 < 2 ^ Z.pos p) by (apply Z.pow_pos_nonneg; lia).
    rewrite !Z.div_div by lia.
    by rewrite pow2_xO.
  - rewrite shr_1_m by done. reflexivity.
Qed.

Lemma round_nearest_even_bounds (mx : Z) (lx : location) :
  mx <= round_nearest_even mx lx <= mx + 1.
Proof.
  destruct lx as [|[]]; cbn [round_nearest_even]; try lia.
  destruct (Z.even mx); lia.
Qed.

(** ** Rounding a positive integer mantissa to binary64 *)

Lemma fexp64 (x : Z) : fexp prec emax x = Z.max (x - 53) (-1074).
Proof. reflexivity. Qed.

Lemma binary_round_aux_shape (Mp p1 : positive) (E : Z) :
  fexp prec emax (Z.pos (Pos.size Mp) + E) - E = Z.pos p1 →
  E + Z.pos p1 <= 970 →
  ∃ m2 : Z,
    Z.pos Mp / 2 ^ Z.pos p1 <= m2 <= Z.pos Mp / 2 ^ Z.pos p1 + 1
    ∧ binary_round_aux prec emax false (Z.pos Mp) E loc_Exact
      = match m2 with
        | Z0 => S754_zero false
        | Z.pos q =>
            if Z.pos q <? 2 ^ 53 then S754_finite false q (E + Z.pos p1)
            else S754_finite false 4503599627370496 (E + Z.pos p1 + 1)
        | Z.neg _ => S754_nan
        end.
Proof.
  intros Hn He.
  unfold binary_round_aux.
  assert (H1 : shr_fexp prec emax (Z.pos Mp) E loc_Exact
               = (SpecFloat.iter_pos shr_1 p1
                    {| shr_m := Z.pos Mp; shr_r := false; shr_s := false |},
                  E + Z.pos p1)).
  { unfold shr_fexp. cbn [Zdigits2 shr_record_of_loc].
    by rewrite digits2_pos_size, Hn. }
  rewrite H1. clear H1.
  set (mrs := SpecFloat.iter_pos shr_1 p1 _).
  assert (Hm1 : shr_m mrs = Z.pos Mp / 2 ^ Z.pos p1)
    by (unfold mrs; by rewrite iter_shr_1_m).
  set (m2 := round_nearest_even (shr_m mrs) (loc_of_shr_record mrs)).
  pose proof (round_nearest_even_bounds (shr_m mrs) (loc_of_shr_record mrs)) as Hm2.
  fold m2 in Hm2. rewrite Hm1 in Hm2.
  exists m2. split; [done|].
  (* the first shift leaves fewer than 54 bits *)
  assert (Hp1 : 0 < 2 ^ Z.pos p1) by (apply Z.pow_pos_nonneg; lia).
  assert (Hlt : Z.pos Mp / 2 ^ Z.pos p1 < 2 ^ 53).
  { apply Z.div_lt_upper_bound; [done|].
    rewrite <-Z.pow_add_r by lia.
    eapply Z.lt_le_trans; [apply Zpos_size_lt|].
    apply Z.pow_le_mono_r; [lia|]. rewrite fexp64 in Hn. lia. }
  assert (Hge : 0 <= Z.pos Mp / 2 ^ Z.pos p1) by (apply Z.div_pos; lia).
  assert (He' : -1074 <= E + Z.pos p1) by (rewrite fexp64 in Hn; lia).
  unfold shr_fexp. cbn [shr_record_of_loc].
  destruct m2 as [|q|q] eqn:Eq; [| |lia].
  - cbn [Zdigits2]. rewrite fexp64.
    destruct (Z.max (0 + (E + Z.pos p1) - 53) (-1074) - (E + Z.pos p1)) eqn:En;
      [reflexivity|lia|reflexivity].
  - cbn [Zdigits2]. rewrite digits2_pos_size, fexp64.
    destruct (Z.pos q <? 2 ^ 53) eqn:Hq.
    + apply Z.ltb_lt in Hq. pose proof (size_le_of_lt q 53 Hq).
      destruct (Z.max (Z.pos (Pos.size q) + (E + Z.pos p1) - 53) (-1074) - (E + Z.pos p1))
        eqn:En; [|lia|]; cbn [shr shr_m];
        (destruct (E + Z.pos p1 <=? emax - prec) eqn:Hb; [reflexivity|];
         apply Z.leb_gt in Hb; unfold emax, prec in Hb; lia).
    + apply Z.ltb_ge in Hq.
      assert (q = 9007199254740992%positive) as -> by lia.
      change (Pos.size 9007199254740992) with 54%positive.
      replace (Z.max (54 + (E + Z.pos p1) - 53) (-1074) - (E + Z.pos p1)) with 1 by lia.
      cbn [shr SpecFloat.iter_pos shr_1 shr_m].
      destruct (E + Z.pos p1 + 1 <=? emax - prec) eqn:Hb; [reflexivity|].
      apply Z.leb_gt in Hb. unfold emax, prec in Hb. lia.
Qed.

(** ** Scaling a probability by 100

    [100.0] is [7036874417766400 * 2^-46] and [1.0] is
    [4503599627370496 * 2^-52]: the product of a number up to [1.0] with
    [100.0] rounds to a number up to [100.0]. *)

Lemma valid_binary_finite (s : bool) (m : positive) (e : Z) :
  valid_binary (S754_finite s m e) = true →
  Z.pos (Pos.size m) <= 53 ∧ -1074 <= e
  ∧ (Z.pos (Pos.size m) = 53 ∨ e = -1074).
Proof.
  cbn [SpecFloat.valid_binary]. unfold bounded, canonical_mantissa.
  intros [Hc _]%andb_true_iff. apply Z.eqb_eq in Hc.
  rewrite digits2_pos_size, fexp64 in Hc. lia.
Qed.

Lemma SFmul_hundred (m : positive) (e : Z) :
  valid_binary (S754_finite false m e) = true →
  e <= -53 →
  SF64mul (S754_finite false m e) (S754_finite false 7036874417766400 (-46))
  = S754_zero false
  ∨ ∃ (mf : positive) (ef : Z),
      SF64mul (S754_finite false m e) (S754_finite false 7036874417766400 (-46))
      = S754_finite false mf ef
      ∧ (ef < -46 ∨ ef = -46 ∧ Z.pos mf <= 7036874417766400).
Proof.
  intros (Hs & Hemin & Hcls)%valid_binary_finite He.
  unfold SF64mul. cbn [SFmul xorb].
  set (Mp := (m * 7036874417766400)%positive).
  set (E := e + -46).
  pose proof (Zpos_size_lt m) as Hmlt. pose proof (Zpos_size_ge m) as Hmge.
  assert (HM : Z.pos Mp = Z.pos m * 7036874417766400) by (unfold Mp; lia).
  assert (Hm53 : Z.pos m < 2 ^ 53).
  { eapply Z.lt_le_trans; [exact Hmlt|]. apply Z.pow_le_mono_r; lia. }
  (* the number of bits of the product *)
  assert (Hd106 : Z.pos (Pos.size Mp) <= Z.pos (Pos.size m) + 53).
  { apply size_le_of_lt. rewrite HM, Z.pow_add_r by lia.
    change (2 ^ 53) with 9007199254740992.
    assert (0 < 2 ^ Z.pos (Pos.size m)) by (apply Z.pow_pos_nonneg; lia). nia. }
  assert (Hd53 : 52 < Z.pos (Pos.size Mp)).
  { apply size_gt_of_ge. rewrite HM. change (2 ^ 52) with 4503599627370496. nia. }
  assert (Hdn : Z.pos (Pos.size m) = 53 → 104 < Z.pos (Pos.size Mp)).
  { intros Hn. apply size_gt_of_ge. rewrite HM. rewrite Hn in Hmge.
    change (2 ^ (53 - 1)) with 4503599627370496 in Hmge.
    change (2 ^ 104) with (4503599627370496 * 4503599627370496). nia. }
  (* the first shift is by at least one bit *)
  destruct (fexp prec emax (Z.pos (Pos.size Mp) + E) - E) as [|p1|p1] eqn:Hn;
    [rewrite fexp64 in Hn; unfold E in Hn; lia| |rewrite fexp64 in Hn; unfold E in Hn; lia].
  assert (He' : E + Z.pos p1 <= -46) by (rewrite fexp64 in Hn; unfold E in *; lia).
  destruct (binary_round_aux_shape Mp p1 E Hn ltac:(lia)) as (m2 & Hm2 & ->).
  assert (Hp1 : 0 < 2 ^ Z.pos p1) by (apply Z.pow_pos_nonneg; lia).
  assert (Hge : 0 <= Z.pos Mp / 2 ^ Z.pos p1) by (apply Z.div_pos; lia).
  (* at exponent -46 the mantissa stays below that of 100 *)
  assert (HK : E + Z.pos p1 = -46 → m2 <= 7036874417766400).
  { intros Heq. rewrite fexp64 in Hn. unfold E in *.
    assert (Z.pos p1 = 53) as Hp by lia. rewrite Hp in Hm2.
    assert (Z.pos Mp / 2 ^ 53 <= 7036874417766399); [|lia].
    change 7036874417766399
      with ((9007199254740991 * 7036874417766400) / 2 ^ 53).
    apply Z.div_le_mono; [done|]. rewrite HM.
    change (2 ^ 53) with 9007199254740992 in Hm53. nia. }
  destruct m2 as [|q|q]; [by left| |lia].
  right. destruct (Z.pos q <? 2 ^ 53) eqn:Hq.
  - exists q, (E + Z.pos p1). split; [done|].
    destruct (Z.eq_dec (E + Z.pos p1) (-46)) as [Heq|Hne]; [|lia].
    right. split; [done|]. by apply HK.
  - exists 4503599627370496%positive, (E + Z.pos p1 + 1). split; [done|].
    apply Z.ltb_ge in Hq.
    destruct (Z.eq_dec (E + Z.pos p1) (-46)) as [Heq|Hne].
    + specialize (HK Heq). change (2 ^ 53) with 9007199254740992 in Hq. lia.
    + destruct (Z.eq_dec (E + Z.pos p1 + 1) (-46)); [right; split; [done|lia]|left; lia].
Qed.

(** ** Probabilities in binary64 *)

Local Open Scope float_scope.

Lemma SFleb_finite (m1 m2 : positive) (e1 e2 : Z) :
  SFleb (S754_finite false m1 e1) (S754_finite false m2 e2) = true
  ↔ (e1 < e2 ∨ e1 = e2 ∧ Z.pos m1 <= Z.pos m2)%Z.
Proof.
  unfold SFleb, SFcompare.
  change (Pos.compare_cont Eq m1 m2) with (Pos.compare m1 m2).
  destruct (Z.compare_spec e1 e2) as [->|Hlt|Hgt].
  - destruct (Pos.compare_spec m1 m2); split; intros; try done; lia.
  - split; intros; [lia|done].
  - split; intros; [done|lia].
Qed.

Lemma SFltb_finite (m1 m2 : positive) (e1 e2 : Z) :
  SFltb (S754_finite false m1 e1) (S754_finite false m2 e2) = true
  ↔ (e1 < e2 ∨ e1 = e2 ∧ Z.pos m1 < Z.pos m2)%Z.
Proof.
  unfold SFltb, SFcompare.
  change (Pos.compare_cont Eq m1 m2) with (Pos.compare m1 m2).
  destruct (Z.compare_spec e1 e2) as [->|Hlt|Hgt].
  - destruct (Pos.compare_spec m1 m2); split; intros; try done; lia.
  - split; intros; [lia|done].
  - split; intros; [done|lia].
Qed.

(** A float between 0 and 1 is a zero or a positive finite number. *)
Lemma b64_prob_cases (x : float) :
  (0 <=? x) = true → (x <=? 1) = true →
  (∃ s, Prim2SF x = S754_zero s)
  ∨ ∃ (m : positive) (e : Z),
      Prim2SF x = S754_finite false m e
      ∧ (e < -52 ∨ e = -52 ∧ Z.pos m <= 4503599627370496)%Z.
Proof.
  rewrite !FloatAxioms.leb_spec.
  change (Prim2SF 0) with (S754_zero false).
  change (Prim2SF 1) with (S754_finite false 4503599627370496 (-52)).
  destruct (Prim2SF x) as [s|s| |s m e].
  - intros _ _. left. by exists s.
  - by destruct s.
  - done.
  - destruct s; [done|]. intros _ Hle. right. exists m, e. split; [done|].
    apply SFleb_finite in Hle. lia.
Qed.

Lemma b64_le_refl (x : float) :
  (0 <=? x) = true → (x <=? 1) = true → (x <=? x) = true.
Proof.
  intros H0 H1. rewrite FloatAxioms.leb_spec.
  destruct (b64_prob_cases x H0 H1) as [[s ->]|(m & e & -> & _)]; [done|].
  apply SFleb_finite. lia.
Qed.

Lemma b64_le_trans (x y z : float) :
  (0 <=? x) = true → (x <=? 1) = true →
  (0 <=? y) = true → (y <=? 1) = true →
  (0 <=? z) = true → (z <=? 1) = true →
  (x <=? y) = true → (y <=? z) = true → (x <=? z) = true.
Proof.
  intros Hx0 Hx1 Hy0 Hy1 Hz0 Hz1. rewrite !FloatAxioms.leb_spec.
  destruct (b64_prob_cases x Hx0 Hx1) as [[sx ->]|(mx & ex & -> & _)];
    destruct (b64_prob_cases y Hy0 Hy1) as [[sy ->]|(my & ey & -> & _)];
    destruct (b64_prob_cases z Hz0 Hz1) as [[sz ->]|(mz & ez & -> & _)];
    try done.
  rewrite !SFleb_finite. lia.
Qed.

Lemma b64_ltb_leb (x y : float) : (x <? y) = true → (x <=? y) = true.
Proof.
  rewrite FloatAxioms.ltb_spec, FloatAxioms.leb_spec. unfold SFltb, SFleb.
  by destruct (SFcompare (Prim2SF x) (Prim2SF y)) as [[]|].
Qed.

Lemma b64_not_ltb_leb (x y : float) :
  (0 <=? x) = true → (x <=? 1) = true →
  (0 <=? y) = true → (y <=? 1) = true →
  (x <? y) = false → (y <=? x) = true.
Proof.
  intros Hx0 Hx1 Hy0 Hy1. rewrite FloatAxioms.ltb_spec, FloatAxioms.leb_spec.
  destruct (b64_prob_cases x Hx0 Hx1) as [[sx ->]|(mx & ex & -> & _)];
    destruct (b64_prob_cases y Hy0 Hy1) as [[sy ->]|(my & ey & -> & _)];
    try done.
  intros Hlt. apply SFleb_finite.
  destruct (SFltb (S754_finite false mx ex) (S754_finite false my ey)) eqn:E; [done|].
  apply not_true_iff_false in E. rewrite SFltb_finite in E. lia.
Qed.

Lemma b64_prob_not_nan (x : float) :
  (0 <=? x) = true → (x <=? 1) = true → is_nan x = false.
Proof.
  intros H0 H1. unfold is_nan. rewrite FloatAxioms.eqb_spec. unfold SFeqb.
  destruct (b64_prob_cases x H0 H1) as [[s ->]|(m & e & -> & _)]; [done|].
  unfold SFcompare. rewrite Z.compare_refl.
  change (Pos.compare_cont Eq m m) with (Pos.compare m m).
  by rewrite Pos.compare_refl.
Qed.

(** The percentage of a probability lies between 0 and 100. *)
Lemma b64_scale_prob (x : float) :
  (0 <=? x) = true → (x <=? 1) = true →
  (0 <=? x * 100) = true ∧ (x * 100 <=? 100) = true.
Proof.
  intros H0 H1. rewrite !FloatAxioms.leb_spec, FloatAxioms.mul_spec.
  change (Prim2SF 0) with (S754_zero false).
  change (Prim2SF 100) with (S754_finite false 7036874417766400 (-46)).
  pose proof (Prim2SF_valid x) as Hv.
  destruct (b64_prob_cases x H0 H1) as [[s Hx]|(m & e & Hx & He)];
    rewrite Hx in *.
  - by destruct s.
  - destruct (Z.le_gt_cases e (-53)) as [Hle|Hgt].
    + destruct (SFmul_hundred m e Hv Hle) as [->|(mf & ef & -> & Hb)]; [done|].
      split; [done|]. by apply SFleb_finite.
    + assert (e = -52%Z ∧ Z.pos m <= 4503599627370496)%Z as [-> Hm] by lia.
      apply valid_binary_finite in Hv as (_ & _ & [Hs|?]); [|lia].
      pose proof (Zpos_size_ge m) as Hge. rewrite Hs in Hge.
      change (2 ^ (53 - 1))%Z with 4503599627370496%Z in Hge.
      assert (m = 4503599627370496%positive) as -> by lia.
      by vm_compute.
Qed.

(** ** The top-1 entry of a list of probabilities *)

(** No probability is a NaN, so the argmax compares with [<] alone. *)
Lemma greater_or_nan_probability (x best : float) :
  probability x → greater_or_nan x best = (best <? x).
Proof.
  intros [H0 H1]. unfold greater_or_nan. cbn [s_isnan s_ltb float_Scalar].
  by rewrite (b64_prob_not_nan x H0 H1).
Qed.

Lemma argmax_from_max (pre l : list float) (bi : nat) (b : float) :
  Forall probability pre → Forall probability l →
  pre !! bi = Some b → (∀ y, y ∈ pre → (y <=? b) = true) →
  ∃ x, (pre ++ l)%list !! argmax_from bi b (length pre) l = Some x
       ∧ ∀ y, y ∈ (pre ++ l)%list → (y <=? x) = true.
Proof.
  revert pre bi b. induction l as [|x l IH]; intros pre bi b Hpre Hl Hb Hmax.
  - exists b. rewrite app_nil_r. by split.
  - apply Forall_cons in Hl as [Hx Hl].
    assert (Hpb : probability b)
      by (rewrite Forall_forall in Hpre; eapply Hpre, list_elem_of_lookup_2, Hb).
    cbn [argmax_from]. rewrite (greater_or_nan_probability x b Hx).
    rewrite (cons_middle x pre l), app_assoc.
    replace (S (length pre)) with (length (pre ++ [x])%list)
      by (rewrite length_app, Nat.add_comm; reflexivity).
    assert (Hpre' : Forall probability (pre ++ [x])%list)
      by (apply Forall_app; split; [done|by apply Forall_singleton]).
    destruct Hx as [Hx0 Hx1]. destruct Hpb as [Hb0 Hb1].
    destruct (b <? x) eqn:Hlt.
    + apply IH; [done|done| |].
      * by rewrite lookup_app_r, Nat.sub_diag.
      * intros y [Hy| ->%list_elem_of_singleton]%elem_of_app.
        -- rewrite Forall_forall in Hpre. destruct (Hpre y Hy) as [Hy0 Hy1].
           apply (b64_le_trans y b x); try done; [by apply Hmax|by apply b64_ltb_leb].
        -- by apply b64_le_refl.
    + apply IH; [done|done| |].
      * by apply lookup_app_l_Some.
      * intros y [Hy| ->%list_elem_of_singleton]%elem_of_app.
        -- by apply Hmax.
        -- by apply b64_not_ltb_leb.
Qed.

(** On probabilities [argmax] returns the index of an entry that no entry
    exceeds. *)
Lemma argmax_max (l : list float) (i : nat) :
  Forall probability l → argmax l = Some i →
  ∃ x, l !! i = Some x ∧ ∀ y, y ∈ l → (y <=? x) = true.
Proof.
  destruct l as [|x l]; [done|]. intros [Hx Hl]%Forall_cons [= <-].
  apply (argmax_from_max [x] l 0%nat x); [by apply Forall_singleton|done|done|].
  intros y ->%list_elem_of_singleton. destruct Hx. by apply b64_le_refl.
Qed.

End Binary64.

(** * Properties of the diagnostic pipeline *)

(** ** The knowledge base *)

(** A record found field by field is a record. *)
Lemma lookup_record (kb : gmap string (gmap string string)) (label : string)
    (fields : list string) :
  Forall (λ field, ∃ v : string, kb !! label ≫= (.!! field) = Some v ∧ v ≠ "")
    fields →
  fields ≠ [] →
  ∃ advice : gmap string string,
    kb !! label = Some advice
    ∧ Forall (λ field, ∃ v : string, advice !! field = Some v ∧ v ≠ "") fields.
Proof.
  intros Hf Hne. destruct (kb !! label) as [advice|].
  - by exists advice.
  - destruct Hf as [|field fields (v & Hv & _) _]; done.
Qed.

(** C2. For every label in {"Brown Spot", "Leaf Blast", "Bacterial Leaf
    Blight", "Tungro", "Khaira"} the lookup in [rice_consultant] returns a
    record in which each of the four fields type, cause, remedy and
    prevention is present and is not the empty string. *)
Theorem rice_consultant_covers_labels :
  Forall
    (λ label : string,
      ∃ advice : gmap string string,
        rice_consultant !! label = Some advice
        ∧ Forall (λ field : string, ∃ v : string, advice !! field = Some v ∧ v ≠ "")
            ["type"; "cause"; "remedy"; "prevention"])
    ["Brown Spot"; "Leaf Blast"; "Bacterial Leaf Blight"; "Tungro"; "Khaira"].
Proof.
  repeat apply Forall_cons_2; try apply Forall_nil_2.
  all: apply lookup_record; [|done].
  all: repeat apply Forall_cons_2; try apply Forall_nil_2.
  all: lazymatch goal with
       | |- ∃ v, ?o = Some v ∧ _ =>
           let r := eval vm_compute in o in
           lazymatch r with
           | Some ?x => exists x; split; [vm_compute; reflexivity|discriminate]
           end
       end.
Qed.

(** C9. No call to [diagnose] changes the global [rice_consultant],
    whichever way the call ends (return, staging failure, inference
    failure, advice absent); and every run of the script, however it
    ends, leaves the global bound to the table of lines 11-42. *)
Theorem rice_consultant_never_mutated {F : Type} `{Scalar F} :
  (∀ (im : Image) (w : @World F),
      g_rice_consultant (diagnose im w).2 = g_rice_consultant w)
  ∧ (∀ (inp : Inputs) (w : @World F),
      g_rice_consultant (script inp w).2 = Some rice_consultant).
Proof.
  split.
  - intros im. apply preserves_diagnose, Quiet_g_rice_consultant.
  - intros inp w. unfold script.
    unfold bind at 1, emit at 1. unfold bind at 1, assign_rice_consultant.
    set (w0 := set_g_rice_consultant _ _).
    change (Some rice_consultant) with (g_rice_consultant w0).
    generalize w0. clear w0.
    pose proof (@Quiet_g_rice_consultant F) as Hq.
    pose proof (quiet_trace _ Hq) as Ht.
    apply preserves_bind; [by apply preserves_emit|]. intros _.
    apply preserves_bind; [by apply preserves_emit|]. intros _.
    apply preserves_bind; [by apply preserves_emit|]. intros _.
    apply preserves_bind; [|intros _; by apply preserves_input_tabs].
    intros w0. unfold load_or_stop, try_except.
    assert (Hl : g_rice_consultant (bind load_model (λ m, assign_model m) w0).2
                 = g_rice_consultant w0).
    { unfold bind, load_model, st_cache_resource, YOLO, bind, emit, assign_model.
      destruct (resource_cache w0); [done|]. cbn.
      by destruct (disk w0 !! "best.pt") as [[]|]. }
    destruct (bind load_model _ w0) as [[a|e] w1]; [done|].
    cbn in Hl. destruct (is_Exception e); [|done].
    unfold bind, emit, st_stop, raise. by cbn.
Qed.

(** ** The sample worlds *)

Lemma serving_mkstemp {F : Type} `{Scalar F} (clf : @Classifier F) :
  mkstemp_inner (disk (serving clf)) ".jpg" (rng (serving clf))
  = Some ("/tmp/tmpabcdefgh.jpg", []).
Proof. vm_compute. reflexivity. Qed.

(** ** The staging file *)

(** C1. The claim fails at this input: a writable image, a loaded model
    whose inference call raises.  [diagnose] ends with the backend's
    exception, and the file it staged, absent before the call, is on
    disk after it. *)
Theorem diagnose_leaks_staging_file_on_inference_failure :
  (diagnose leaf (serving (F:=float) fails)).1 = Raise (BackendError "inference failed")
  ∧ disk (serving (F:=float) fails) !! "/tmp/tmpabcdefgh.jpg" = None
  ∧ disk (diagnose leaf (serving (F:=float) fails)).2 !! "/tmp/tmpabcdefgh.jpg"
    = Some (ImageFile JPEG leaf).
Proof.
  rewrite (diagnose_inference_raises (serving fails) leaf "/tmp/tmpabcdefgh.jpg" []
             {| obj_id := 0; yolo_weights := fails |} (BackendError "inference failed")
             (serving_mkstemp fails) eq_refl eq_refl eq_refl).
  split; [reflexivity|]. split; [vm_compute; reflexivity|].
  apply lookup_insert_eq.
Qed.

(** C10. The staged path always carries the extension [.jpg], so the
    image is written by the JPEG writer whatever format it was opened
    from.  When that writer refuses the mode of the image, [diagnose]
    raises out of the staging step, and the trace shows no call of the
    backend.  A PNG with an alpha channel is such an image: [Image.open]
    accepts it, its mode is RGBA. *)
Theorem staging_always_writes_jpeg {F : Type} `{Scalar F}
    (w : @World F) (path : string) (rest : list (list nat)) :
  mkstemp_inner (disk w) ".jpg" (rng w) = Some (path, rest) →
  EXTENSION (lower (splitext_ext path)) = Some JPEG
  ∧ (∀ im : Image,
       can_write JPEG (im_mode im) = true →
       save_temp_file im w
       = (Ret path, set_rng rest (set_disk (<[path := ImageFile JPEG im]> (disk w)) w)))
  ∧ (∀ im : Image,
       can_write JPEG (im_mode im) = false →
       diagnose im w
       = (Raise (cannot_write JPEG (im_mode im)),
          set_trace (trace w ++ analyzing im)
            (set_rng rest (set_disk (<[path := Empty]> (disk w)) w))))
  ∧ (∃ im : Image,
       Image_open png_with_alpha w = (Ret im, w)
       ∧ im_format im = Some PNG
       ∧ can_write JPEG (im_mode im) = false
       ∧ cannot_write JPEG (im_mode im) = OSError "cannot write mode RGBA as JPEG").
Proof.
  intros Hm. split; [|split; [|split]].
  - destruct (mkstemp_inner_Some _ _ _ _ _ Hm) as (_ & n & _ & ->).
    apply temp_path_format.
  - intros im Hcw. by apply save_temp_file_written.
  - intros im Hcw. by apply diagnose_staging_refused.
  - by exists {| im_format := Some PNG; im_mode := M_RGBA; im_pixels := [] |}.
Qed.

Lemma staging_always_writes_jpeg_witness :
  (diagnose {| im_format := Some PNG; im_mode := M_RGBA; im_pixels := [] |}
     (serving (F:=float) fails)).1
  = Raise (OSError "cannot write mode RGBA as JPEG").
Proof.
  destruct (staging_always_writes_jpeg (serving (F:=float) fails)
              "/tmp/tmpabcdefgh.jpg" [] (serving_mkstemp fails))
    as (_ & _ & Hd & _).
  rewrite (Hd {| im_format := Some PNG; im_mode := M_RGBA; im_pixels := [] |} eq_refl).
  reflexivity.
Defined.

(** ** The model handle *)

(** C8. A call to [diagnose] that raises leaves the cache entry and the
    global [model] as they were: the next call reads the same model
    object, and [load_model] still returns it without loading. *)
Theorem inference_failure_keeps_model {F : Type} `{Scalar F}
    (im : Image) (w w' : @World F) (e : Exn) :
  diagnose im w = (Raise e, w') →
  resource_cache w' = resource_cache w
  ∧ g_model w' = g_model w
  ∧ next_id w' = next_id w
  ∧ (global_model w').1 = (global_model w).1
  ∧ (∀ m, resource_cache w = Some m → load_model w' = (Ret m, w')).
Proof.
  intros Hd.
  pose proof (preserves_diagnose resource_cache Quiet_resource_cache im w) as Hc.
  pose proof (preserves_diagnose g_model Quiet_g_model im w) as Hg.
  pose proof (preserves_diagnose next_id Quiet_next_id im w) as Hn.
  rewrite Hd in Hc, Hg, Hn. cbn [snd] in Hc, Hg, Hn.
  repeat split; try done.
  - unfold global_model. rewrite Hg. by destruct (g_model w).
  - intros m Hm. apply load_model_cached. by rewrite Hc.
Qed.

Lemma inference_failure_keeps_model_witness :
  ∃ w' : @World float,
    diagnose leaf (serving fails) = (Raise (BackendError "inference failed"), w')
    ∧ g_model w' = Some {| obj_id := 0; yolo_weights := fails |}.
Proof.
  eexists. split.
  - exact (diagnose_inference_raises (serving fails) leaf "/tmp/tmpabcdefgh.jpg" []
             {| obj_id := 0; yolo_weights := fails |} (BackendError "inference failed")
             (serving_mkstemp fails) eq_refl eq_refl eq_refl).
  - exact (proj1 (proj2
      (inference_failure_keeps_model leaf (serving fails) _ _
         (diagnose_inference_raises (serving fails) leaf "/tmp/tmpabcdefgh.jpg" []
            {| obj_id := 0; yolo_weights := fails |} (BackendError "inference failed")
            (serving_mkstemp fails) eq_refl eq_refl eq_refl)))).
Defined.

(** C4. With an empty cache and the artifact at [best.pt], the first
    call of [load_model] builds the model from that file (one [YOLO]
    call in the trace) and caches it.  Every later call returns the same
    object and changes nothing, so it builds no model: directly after,
    after any sequence of script runs, and in any world whose cache still
    holds the object. *)
Theorem load_model_idempotent {F : Type} `{Scalar F}
    (w : @World F) (clf : Classifier) :
  resource_cache w = None →
  disk w !! "best.pt" = Some (Weights clf) →
  ∃ (m : YOLOModel) (w1 : World),
    load_model w = (Ret m, w1)
    ∧ yolo_weights m = clf
    ∧ trace w1 = (trace w ++ [ev_YOLO "best.pt"])%list
    ∧ load_model w1 = (Ret m, w1)
    ∧ (∀ runs : list Inputs,
         load_model (session runs w1).2 = (Ret m, (session runs w1).2))
    ∧ (∀ w2 : World, resource_cache w2 = Some m → load_model w2 = (Ret m, w2)).
Proof.
  intros Hc Hd.
  exists {| obj_id := next_id w; yolo_weights := clf |}.
  exists (set_resource_cache (Some {| obj_id := next_id w; yolo_weights := clf |})
            (set_next_id (S (next_id w))
               (set_trace (trace w ++ [ev_YOLO "best.pt"]) w))).
  split; [exact (load_model_first w clf Hc Hd)|].
  split; [done|]. split; [done|].
  split; [by apply load_model_cached|].
  split; [|intros w2; apply load_model_cached].
  intros runs. by apply load_model_cached, session_keeps_cache.
Qed.

Lemma load_model_idempotent_witness :
  ∃ (m : YOLOModel) (w1 : @World float),
    load_model (boot (F:=float) {[ "best.pt" := Weights fails ]} []) = (Ret m, w1)
    ∧ load_model w1 = (Ret m, w1).
Proof.
  destruct (load_model_idempotent (boot (F:=float) {[ "best.pt" := Weights fails ]} []) fails
              eq_refl (lookup_singleton_eq _ _))
    as (m & w1 & H1 & _ & _ & H2 & _).
  exists m, w1. split; [exact H1|exact H2].
Defined.

(** C5. In a run that finds no cached model and no loadable artifact at
    [best.pt], the script makes one load attempt, renders the error and
    stops: nothing after line 59 runs, so no input widget is rendered
    and [diagnose] is not called.  Nothing is cached and the disk is
    untouched; as long as that holds, every run of a session stops the
    same way, the backend is never called, and every run makes a load
    attempt of its own. *)
Theorem script_stops_without_model {F : Type} `{Scalar F}
    (inp : Inputs) (w : @World F) :
  resource_cache w = None →
  (∀ clf, disk w !! "best.pt" ≠ Some (Weights clf)) →
  (script inp w).1 = Raise StopException
  ∧ trace (script inp w).2 = (trace w ++ model_not_found)%list
  ∧ disk (script inp w).2 = disk w
  ∧ resource_cache (script inp w).2 = None
  ∧ g_model (script inp w).2 = g_model w
  ∧ ∀ runs : list Inputs,
      (session runs w).1 = (λ _, Raise StopException) <$> runs
      ∧ filter is_predict (trace (session runs w).2) = filter is_predict (trace w)
      ∧ filter is_YOLO (trace (session runs w).2)
        = (filter is_YOLO (trace w) ++ replicate (length runs) (ev_YOLO "best.pt"))%list.
Proof.
  intros Hc Hd. rewrite (script_stops inp w Hc Hd).
  do 5 (split; [done|]).
  intros runs. revert w Hc Hd.
  induction runs as [|i runs IH]; intros w Hc Hd.
  { cbn. by rewrite app_nil_r. }
  cbn [session]. unfold rerun.
  rewrite (script_stops i (fresh_namespace w) Hc Hd).
  match goal with |- context [session runs ?w1] =>
    specialize (IH w1 Hc Hd); destruct (session runs w1) as [rs w2] end.
  destruct IH as (IH1 & IH2 & IH3). cbn [fst snd] in *. split; [|split].
  - by rewrite IH1.
  - rewrite IH2. cbn [trace set_trace set_g_rice_consultant].
    rewrite filter_app. cbn [fresh_namespace trace set_g_model set_g_rice_consultant].
    by rewrite (app_nil_r (filter is_predict (trace w))).
  - rewrite IH3. cbn [trace set_trace set_g_rice_consultant].
    rewrite filter_app. cbn [fresh_namespace trace set_g_model set_g_rice_consultant].
    cbn [length replicate]. by rewrite <-app_assoc.
Qed.

Lemma script_stops_without_model_witness :
  (script {| cam_img := Some png_with_alpha; up_file := None; analyze_clicked := false |}
     (boot (F:=float) ∅ [])).1
  = Raise StopException.
Proof.
  exact (proj1 (script_stops_without_model
           {| cam_img := Some png_with_alpha; up_file := None; analyze_clicked := false |}
           (boot (F:=float) ∅ []) eq_refl
           (λ clf Hc, eq_ind None (λ o, match o with None => True | Some _ => False end)
                        I _ (eq_trans (eq_sym (lookup_empty _)) Hc)))).
Defined.

(** C5, the process.  A failed load stops the run it happens in, not the
    process: started without [best.pt], the process stops its first run;
    a second run tries the load again; and once the artifact is put in
    place, the next run of the same process loads it and serves the
    camera photo. *)
Lemma failed_load_is_retried_by_the_next_run :
  (rerun idle (boot (F:=float) ∅ [[0; 1; 2; 3; 4; 5; 6; 7]])).1 = Raise StopException
  ∧ filter is_YOLO
      (trace (session [idle; idle] (boot (F:=float) ∅ [[0; 1; 2; 3; 4; 5; 6; 7]])).2)
    = [ev_YOLO "best.pt"; ev_YOLO "best.pt"]
  ∧ (rerun snapshot
       (set_disk {[ "best.pt" := Weights (answers leaf_blast_distribution) ]}
          (rerun idle (boot (F:=float) ∅ [[0; 1; 2; 3; 4; 5; 6; 7]])).2)).1
    = Ret tt
  ∧ filter is_predict
      (trace (rerun snapshot
                (set_disk {[ "best.pt" := Weights (answers leaf_blast_distribution) ]}
                   (rerun idle (boot (F:=float) ∅ [[0; 1; 2; 3; 4; 5; 6; 7]])).2)).2)
    = [ev_predict 0 "/tmp/tmpabcdefgh.jpg"].
Proof.
  split; [vm_compute; reflexivity|].
  split; [vm_compute; reflexivity|].
  split; vm_compute; reflexivity.
Qed.

(** ** From the distribution to the diagnosis and the advice *)

(** C3. For every non-empty distribution of probabilities (binary64
    numbers between 0 and 1) the extraction of lines 76-79 returns a
    label and a confidence such that the label's probability [p] is an
    entry of the distribution, every entry is less than or equal to [p],
    and the confidence is the binary64 product [p * 100], which lies
    between 0 and 100.  [diagnose] renders this pair as it is and goes on
    to the advice: no threshold is tested. *)
Theorem top1_extraction (dist : list (string * float)) (w : @World float) :
  dist ≠ [] →
  Forall (λ e, probability e.2) dist →
  ∃ (label : string) (p : float),
    (label, p) ∈ dist
    ∧ (∀ l q, (l, q) ∈ dist → (q <=? p)%float = true)
    ∧ extract_results (results_of dist) w = (Ret (label, (p * 100)%float), w)
    ∧ (0 <=? p * 100)%float = true
    ∧ (p * 100 <=? 100)%float = true
    ∧ (∀ (im : Image) (path : string) (rest : list (list nat)) (m : YOLOModel),
         mkstemp_inner (disk w) ".jpg" (rng w) = Some (path, rest) →
         can_write JPEG (im_mode im) = true →
         g_model w = Some m →
         yolo_weights m im = Ret (results_of dist) →
         diagnose im w
         = get_advice label
             (set_trace
                (trace w ++ analyzing im
                   ++ [ev_predict (obj_id m) path;
                       st_success (diagnosis_text label (p * 100)%float)])
                (set_rng rest w))).
Proof.
  intros Hne Hb.
  destruct (argmax_is_Some (dist.*2)) as [i Hi]; [by destruct dist|].
  destruct (argmax_max (dist.*2) i) as (x & Hx & Hmax);
    [by apply Forall_fmap|done|].
  rewrite list_lookup_fmap in Hx.
  destruct (dist !! i) as [[label p]|] eqn:Hl; [|done].
  cbn in Hx. injection Hx as <-.
  assert (He : ∀ w0 : @World float,
             extract_results (results_of dist) w0 = (Ret (label, (p * 100)%float), w0)).
  { intros w0. change (p * 100)%float with (s_mul p s_hundred).
    apply (extract_results_Ret _ [] {| data := dist.*2 |} i label p w0); cbn [r_probs r_names data].
    - done.
    - done.
    - by rewrite lookup_map_seq_0, list_lookup_fmap, Hl.
    - by rewrite list_lookup_fmap, Hl. }
  assert (Hin : (label, p) ∈ dist) by (by eapply list_elem_of_lookup_2).
  rewrite Forall_forall in Hb. destruct (Hb _ Hin) as [H0 H1]. cbn [snd] in H0, H1.
  destruct (b64_scale_prob p H0 H1) as [Hs0 Hs1].
  exists label, p. split; [done|]. split.
  { intros l q Hq. apply Hmax. apply list_elem_of_fmap. by exists (l, q). }
  do 3 (split; [done|]).
  intros im path rest m Hm Hcw Hg Hy.
  apply (diagnose_diagnosed w im path rest m (results_of dist)); try done.
  by rewrite He.
Qed.

Lemma top1_extraction_witness :
  ∃ (label : string) (p : float),
    (label, p) ∈ leaf_blast_distribution
    ∧ extract_results (results_of leaf_blast_distribution)
        (serving (answers leaf_blast_distribution))
      = (Ret (label, (p * 100)%float), serving (answers leaf_blast_distribution))
    ∧ (0 <=? p * 100)%float = true ∧ (p * 100 <=? 100)%float = true.
Proof.
  destruct (top1_extraction leaf_blast_distribution
              (serving (answers leaf_blast_distribution))
              ltac:(discriminate)
              ltac:(repeat constructor))
    as (label & p & Hin & _ & He & H0 & H1 & _).
  exists label, p. split; [exact Hin|]. split; [exact He|]. split; [exact H0|exact H1].
Defined.

(** The hypothesis on the entries is needed: a NaN is no probability,
    [argmax] selects it in front of every number, and the confidence the
    extraction then returns is a NaN, which lies in no interval. *)
Lemma extract_results_undefined (w : @World float) :
  ∃ conf : float,
    extract_results (results_of undefined_distribution) w = (Ret ("Brown Spot", conf), w)
    ∧ is_nan conf = true
    ∧ (0 <=? conf)%float = false ∧ (conf <=? 100)%float = false.
Proof.
  exists (s_mul nan s_hundred). split; [|by vm_compute].
  by apply (extract_results_Ret _ [] {| data := undefined_distribution.*2 |} 1%nat
              "Brown Spot" nan w).
Qed.

(** C6. When the label the extraction yields has no entry in the
    knowledge base, [diagnose] returns normally: it renders the
    diagnosis and then the warning "No specific advice available.". *)
Theorem diagnose_without_advice {F : Type} `{Scalar F}
    (w : @World F) (im : Image) (path : string) (rest : list (list nat))
    (m : YOLOModel) (results : list Result) (label : string) (conf : F)
    (kb : gmap string (gmap string string)) :
  mkstemp_inner (disk w) ".jpg" (rng w) = Some (path, rest) →
  can_write JPEG (im_mode im) = true →
  g_model w = Some m →
  yolo_weights m im = Ret results →
  (extract_results results w).1 = Ret (label, conf) →
  g_rice_consultant w = Some kb →
  kb !! label = None →
  diagnose im w
  = (Ret tt,
     set_trace
       (trace w ++ analyzing im
          ++ [ev_predict (obj_id m) path; st_success (diagnosis_text label conf)]
          ++ advice_unavailable)
       (set_rng rest w)).
Proof.
  intros Hm Hcw Hg Hy He Hk Hn.
  rewrite (diagnose_diagnosed w im path rest m results label conf) by done.
  rewrite (get_advice_absent _ kb label) by done.
  f_equal. apply World_eq; try done.
  cbn [trace set_trace set_rng]. by rewrite <-!app_assoc.
Qed.

Lemma healthy_extracted :
  (extract_results (results_of healthy_distribution)
     (serving (answers healthy_distribution))).1
  = Ret ("Healthy", 75%float).
Proof. vm_compute. reflexivity. Qed.

Lemma rice_consultant_no_Healthy : rice_consultant !! "Healthy" = None.
Proof. vm_compute. reflexivity. Qed.

Lemma diagnose_without_advice_witness :
  (diagnose leaf (serving (answers healthy_distribution))).1 = Ret tt.
Proof.
  rewrite (diagnose_without_advice (serving (answers healthy_distribution)) leaf
             "/tmp/tmpabcdefgh.jpg" []
             {| obj_id := 0; yolo_weights := answers healthy_distribution |}
             (results_of healthy_distribution) "Healthy" 75%float rice_consultant
             (serving_mkstemp _) eq_refl eq_refl eq_refl healthy_extracted eq_refl
             rice_consultant_no_Healthy).
  reflexivity.
Defined.

(** C7. When the backend answers [("Leaf Blast", 0.87), ("Brown Spot",
    0.09), ("Tungro", 0.04)], [diagnose] renders the diagnosis "Leaf
    Blast" with confidence 87.0 (binary64 arithmetic), followed by the
    treatment plan of the "Leaf Blast" record, whose remedy is "Spray
    Tricyclazole 75 WP.". *)
Theorem diagnose_leaf_blast
    (w : @World float) (im : Image) (path : string) (rest : list (list nat))
    (m : YOLOModel) :
  mkstemp_inner (disk w) ".jpg" (rng w) = Some (path, rest) →
  can_write JPEG (im_mode im) = true →
  g_model w = Some m →
  yolo_weights m im = Ret (results_of leaf_blast_distribution) →
  g_rice_consultant w = Some rice_consultant →
  diagnose im w
  = (Ret tt,
     set_trace
       (trace w ++ analyzing im
          ++ [ev_predict (obj_id m) path;
              st_success (diagnosis_text "Leaf Blast" 87%float)]
          ++ treatment_plan
               "Fungal Infection (Magnaporthe oryzae)"
               "Triggered by Excess Nitrogen (toxic)."
               "Spray Tricyclazole 75 WP."
               "Avoid excess Urea. Split N application into 3-4 doses.")
       (set_rng rest w))
  ∧ rice_consultant !! "Leaf Blast" ≫= (.!! "remedy") = Some "Spray Tricyclazole 75 WP.".
Proof.
  intros Hm Hcw Hg Hy Hk.
  assert (He : (extract_results (results_of leaf_blast_distribution) w).1
               = Ret ("Leaf Blast", 87%float)).
  { rewrite (extract_results_pure _ w (serving fails)). vm_compute. reflexivity. }
  assert (Hr : rice_consultant !! "Leaf Blast" ≫= (.!! "remedy")
               = Some "Spray Tricyclazole 75 WP.") by (vm_compute; reflexivity).
  split; [|exact Hr].
  rewrite (diagnose_diagnosed w im path rest m
             (results_of leaf_blast_distribution) "Leaf Blast" 87%float Hm Hcw Hg Hy He).
  rewrite (get_advice_found _ rice_consultant "Leaf Blast"
             "Fungal Infection (Magnaporthe oryzae)"
             "Triggered by Excess Nitrogen (toxic)."
             "Spray Tricyclazole 75 WP."
             "Avoid excess Urea. Split N application into 3-4 doses.");
    [|exact Hk|vm_compute; reflexivity..].
  f_equal. apply World_eq; try done.
  cbn [trace set_trace set_rng]. by rewrite <-!app_assoc.
Qed.

Lemma diagnose_leaf_blast_witness :
  (diagnose leaf (serving (answers leaf_blast_distribution))).1 = Ret tt.
Proof.
  rewrite (proj1 (diagnose_leaf_blast (serving (answers leaf_blast_distribution)) leaf
              "/tmp/tmpabcdefgh.jpg" []
              {| obj_id := 0; yolo_weights := answers leaf_blast_distribution |}
              (serving_mkstemp _) eq_refl eq_refl eq_refl eq_refl)).
  reflexivity.
Defined.

(** * Further properties of [app.py] *)

Section More.

Context {F : Type} `{Scalar F}.

Local Abbreviation World := (@World F) (only parsing).
Local Abbreviation Py := (@Py F) (only parsing).
Local Abbreviation Event := (@Event F) (only parsing).
Local Abbreviation Result := (@Result F) (only parsing).
Local Abbreviation YOLOModel := (@YOLOModel F) (only parsing).
Local Abbreviation Classifier := (@Classifier F) (only parsing).
Local Abbreviation Inputs := (@Inputs F) (only parsing).
Local Abbreviation UploadedFile := (@UploadedFile F) (only parsing).

Implicit Types (w : World) (im : Image).

(** ** What a statement adds to the trace *)

Lemma appends_silent {A} (Q : Event → Prop) (c : Py A) :
  (∀ w, trace (c w).2 = trace w) → appends Q c.
Proof. intros Hc w. exists []. by rewrite Hc, app_nil_r. Qed.

Lemma appends_emit (Q : Event → Prop) (e : Event) : Q e → appends Q (emit e).
Proof. intros He w. exists [e]. split; [done|]. by apply Forall_singleton. Qed.

Lemma appends_bind {A B} (Q : Event → Prop) (c : Py A) (k : A → Py B) :
  appends Q c → (∀ a, appends Q (k a)) → appends Q (bind c k).
Proof.
  intros Hc Hk w. unfold bind. destruct (Hc w) as (es & Ht & HQ).
  destruct (c w) as [[a|e] w1]; cbn [snd] in *; [|by exists es].
  destruct (Hk a w1) as (es' & Ht' & HQ').
  exists (es ++ es')%list. split.
  - by rewrite Ht', Ht, <-app_assoc.
  - by apply Forall_app.
Qed.

Lemma appends_mono {A} (Q Q' : Event → Prop) (c : Py A) :
  (∀ e, Q e → Q' e) → appends Q c → appends Q' c.
Proof.
  intros HQ Hc w. destruct (Hc w) as (es & Ht & Hes).
  exists es. split; [done|]. by eapply Forall_impl.
Qed.

Lemma appends_extract_results (Q : Event → Prop) (results : list Result) :
  appends Q (extract_results results).
Proof.
  apply appends_silent. intros w.
  by rewrite (extract_results_pure results w w).
Qed.

Lemma appends_get_advice (pred_name : string) :
  appends (λ e : Event, is_rendering e = true) (get_advice pred_name).
Proof.
  apply appends_bind.
  { apply appends_silent. intros w. unfold global_rice_consultant.
    by destruct (g_rice_consultant w). }
  intros rc. destruct (rc !! pred_name) as [advice|]; [|by apply appends_emit].
  case_bool_decide; [by apply appends_emit|].
  repeat (apply appends_bind;
          [first [by apply appends_emit
                 |apply appends_silent; intros w; unfold dict_getitem; by case_match]|];
          intros ?).
  by apply appends_emit.
Qed.

(** ** The remaining path through [diagnose] *)


(** What [diagnose] does after the backend has returned adds rendered
    elements only. *)
Lemma appends_after_inference (results : list Result) :
  appends (λ e : Event, is_rendering e = true)
    (bind (extract_results results)
       (λ '(pred_name, conf),
         bind (emit (st_success (diagnosis_text pred_name conf)))
           (λ _, get_advice pred_name))).
Proof.
  apply appends_bind; [apply appends_extract_results|].
  intros [pred_name conf].
  apply appends_bind; [by apply appends_emit|].
  intros _. apply appends_get_advice.
Qed.

(** ** The disk across a call of [diagnose] *)

(** X1. When the backend returns, the staged file is removed before the
    results are read: after the call the disk is what it was before it,
    also when reading the results or the advice raises. *)
Theorem staged_file_removed_when_inference_returns
    w im (path : string) (rest : list (list nat)) (m : YOLOModel)
    (results : list Result) :
  mkstemp_inner (disk w) ".jpg" (rng w) = Some (path, rest) →
  can_write JPEG (im_mode im) = true →
  g_model w = Some m →
  yolo_weights m im = Ret results →
  disk (diagnose im w).2 = disk w
  ∧ disk (diagnose im w).2 !! path = None.
Proof.
  intros Hm Hcw Hg Hy.
  rewrite (diagnose_inferred_disk w im path rest m results Hm Hcw Hg Hy).
  split; [done|]. by destruct (mkstemp_inner_Some _ _ _ _ _ Hm).
Qed.


(** ** The trace of a call of [diagnose] *)

(** X3. With the global [model] bound, a call of [diagnose] renders the
    image and the spinner and then calls the backend at most once: with
    that model object, on a temporary [.jpg] path that was free.  What
    follows the backend call are rendered elements; no model is built. *)
Theorem diagnose_calls_model_at_most_once im w (m : YOLOModel) :
  g_model w = Some m →
  ∃ es : list Event,
    trace (diagnose im w).2 = (trace w ++ analyzing im ++ es)%list
    ∧ (es = []
       ∨ ∃ (draws : list nat) (rendered : list Event),
           disk w !! temp_path ".jpg" draws = None
           ∧ es = ev_predict (obj_id m) (temp_path ".jpg" draws) :: rendered
           ∧ Forall (λ e, is_rendering e = true) rendered).
Proof.
  intros Hg.
  destruct (mkstemp_inner (disk w) ".jpg" (rng w)) as [[path rest]|] eqn:Hm.
  2:{ exists []. rewrite (diagnose_no_name w im Hm), app_nil_r. auto. }
  destruct (mkstemp_inner_Some _ _ _ _ _ Hm) as (Hfree & n & Hn & ->).
  destruct (can_write JPEG (im_mode im)) eqn:Hcw.
  2:{ exists []. rewrite (diagnose_staging_refused w im _ rest Hm Hcw), app_nil_r. auto. }
  destruct (yolo_weights m im) as [results|e] eqn:Hy.
  - rewrite (diagnose_inferred w im _ rest m results Hm Hcw Hg Hy).
    edestruct (appends_after_inference results) as (es & -> & Hes).
    exists (ev_predict (obj_id m) (temp_path ".jpg" n) :: es). split.
    + cbn [trace set_trace]. by rewrite <-!app_assoc.
    + right. by exists n, es.
  - exists [ev_predict (obj_id m) (temp_path ".jpg" n)].
    rewrite (diagnose_inference_raises w im _ rest m e Hm Hcw Hg Hy).
    split; [done|]. right. by exists n, [].
Qed.

End More.

Lemma staged_file_removed_when_inference_returns_witness :
  disk (diagnose leaf (serving (F:=float) (answers healthy_distribution))).2
  = disk (serving (F:=float) (answers healthy_distribution)).
Proof.
  exact (proj1 (staged_file_removed_when_inference_returns
           (serving (answers healthy_distribution)) leaf "/tmp/tmpabcdefgh.jpg" []
           {| obj_id := 0; yolo_weights := answers healthy_distribution |}
           (results_of healthy_distribution)
           (serving_mkstemp _) eq_refl eq_refl eq_refl)).
Defined.

Lemma diagnose_calls_model_at_most_once_witness :
  ∃ es : list (@Event float),
    trace (diagnose leaf (serving fails)).2
    = (trace (serving fails) ++ analyzing leaf ++ es)%list.
Proof.
  destruct (diagnose_calls_model_at_most_once leaf (serving (F:=float) fails)
              {| obj_id := 0; yolo_weights := fails |} eq_refl)
    as (es & Ht & _).
  exists es. exact Ht.
Defined.

Section Advice.

Context {F : Type} `{Scalar F}.

Local Abbreviation World := (@World F) (only parsing).
Local Abbreviation Event := (@Event F) (only parsing).
Local Abbreviation Result := (@Result F) (only parsing).
Local Abbreviation YOLOModel := (@YOLOModel F) (only parsing).

Implicit Types (w : World) (im : Image).

(** ** Results that cannot be read *)

(** X4. When the backend returns but reading the results raises (an
    empty result list, a result without [probs], a class index without a
    name), [diagnose] ends with that exception after it has removed the
    staged file: the trace ends with the backend call, no diagnosis is
    rendered. *)
Theorem diagnose_unreadable_results
    w im (path : string) (rest : list (list nat)) (m : YOLOModel)
    (results : list Result) (e : Exn) :
  mkstemp_inner (disk w) ".jpg" (rng w) = Some (path, rest) →
  can_write JPEG (im_mode im) = true →
  g_model w = Some m →
  yolo_weights m im = Ret results →
  (extract_results results w).1 = Raise e →
  diagnose im w
  = (Raise e,
     set_trace (trace w ++ analyzing im ++ [ev_predict (obj_id m) path])
       (set_rng rest w)).
Proof.
  intros Hm Hcw Hg Hy He.
  rewrite (diagnose_inferred w im path rest m results Hm Hcw Hg Hy).
  unfold bind at 1. by rewrite (extract_results_pure results _ w), He.
Qed.

End Advice.

(** ** The keys of the knowledge base *)

Lemma rice_consultant_is_Some (label : string) :
  is_Some (rice_consultant !! label)
  ↔ label ∈ ["Brown Spot"; "Leaf Blast"; "Bacterial Leaf Blight"; "Tungro"; "Khaira"].
Proof.
  unfold rice_consultant.
  rewrite !lookup_insert_is_Some', lookup_singleton_is_Some.
  rewrite !elem_of_cons, elem_of_nil.
  split; intros Hl; repeat destruct Hl as [Hl|Hl]; subst; tauto.
Qed.

(** X5. The knowledge base has the five keys of lines 12-36 and no
    other: a lookup succeeds exactly for these strings, so any other
    label a model may produce finds no record. *)
Theorem rice_consultant_exact_keys (label : string) :
  (is_Some (rice_consultant !! label)
   ↔ label ∈ ["Brown Spot"; "Leaf Blast"; "Bacterial Leaf Blight"; "Tungro"; "Khaira"])
  ∧ (rice_consultant !! label = None
     ↔ label ∉ ["Brown Spot"; "Leaf Blast"; "Bacterial Leaf Blight"; "Tungro"; "Khaira"]).
Proof.
  split; [apply rice_consultant_is_Some|].
  by rewrite eq_None_not_Some, rice_consultant_is_Some.
Qed.

Lemma rice_consultant_fields (label : string) :
  label ∈ ["Brown Spot"; "Leaf Blast"; "Bacterial Leaf Blight"; "Tungro"; "Khaira"] →
  Forall (λ field : string, is_Some (rice_consultant !! label ≫= (.!! field)))
    ["type"; "cause"; "remedy"; "prevention"].
Proof.
  rewrite !elem_of_cons, elem_of_nil. intros Hl.
  repeat destruct Hl as [Hl|Hl]; [subst label..|done].
  all: repeat apply Forall_cons_2; try apply Forall_nil_2.
  all: lazymatch goal with
       | |- is_Some ?o =>
           let r := eval vm_compute in o in
           lazymatch r with
           | Some ?x => exists x; vm_compute; reflexivity
           end
       end.
Qed.

Section Advised.

Context {F : Type} `{Scalar F}.

Local Abbreviation World := (@World F) (only parsing).
Local Abbreviation Event := (@Event F) (only parsing).
Local Abbreviation Result := (@Result F) (only parsing).
Local Abbreviation YOLOModel := (@YOLOModel F) (only parsing).

Implicit Types (w : World) (im : Image).

(** With the table of lines 11-42 the advice step returns for every
    label: the plan of the record when the label is a key, the warning
    otherwise. *)
Lemma get_advice_rice_consultant w (label : string) :
  g_rice_consultant w = Some rice_consultant →
  ∃ advised : list Event,
    get_advice label w = (Ret tt, set_trace (trace w ++ advised) w)
    ∧ if bool_decide
           (label ∈ ["Brown Spot"; "Leaf Blast"; "Bacterial Leaf Blight"; "Tungro"; "Khaira"])
      then ∃ t c r v : string,
             rice_consultant !! label ≫= (.!! "type") = Some t
             ∧ rice_consultant !! label ≫= (.!! "cause") = Some c
             ∧ rice_consultant !! label ≫= (.!! "remedy") = Some r
             ∧ rice_consultant !! label ≫= (.!! "prevention") = Some v
             ∧ advised = treatment_plan t c r v
      else advised = advice_unavailable.
Proof.
  intros Hg. case_bool_decide as Hl.
  - pose proof (rice_consultant_fields label Hl) as Hf.
    apply Forall_cons in Hf as [[t Ht] Hf]. apply Forall_cons in Hf as [[c Hc] Hf].
    apply Forall_cons in Hf as [[r Hr] Hf]. apply Forall_cons in Hf as [[v Hv] _].
    exists (treatment_plan t c r v). split.
    + by apply (get_advice_found w rice_consultant label t c r v).
    + exists t, c, r, v. repeat split; assumption.
  - exists advice_unavailable. split; [|done].
    apply (get_advice_absent w rice_consultant label Hg).
    apply eq_None_not_Some. by rewrite rice_consultant_is_Some.
Qed.

(** X6. With the table of lines 11-42, once a label and a confidence
    have been read from the results, [diagnose] returns normally for
    every label: it renders the diagnosis and then the four-part plan of
    the label's record when the label is one of the five keys, the
    single warning otherwise.  The advice step raises no [KeyError]. *)
Theorem diagnose_always_advises
    w im (path : string) (rest : list (list nat)) (m : YOLOModel)
    (results : list Result) (label : string) (conf : F) :
  mkstemp_inner (disk w) ".jpg" (rng w) = Some (path, rest) →
  can_write JPEG (im_mode im) = true →
  g_model w = Some m →
  yolo_weights m im = Ret results →
  (extract_results results w).1 = Ret (label, conf) →
  g_rice_consultant w = Some rice_consultant →
  ∃ advised : list Event,
    diagnose im w
    = (Ret tt,
       set_trace
         (trace w ++ analyzing im
            ++ [ev_predict (obj_id m) path; st_success (diagnosis_text label conf)]
            ++ advised)
         (set_rng rest w))
    ∧ if bool_decide
           (label ∈ ["Brown Spot"; "Leaf Blast"; "Bacterial Leaf Blight"; "Tungro"; "Khaira"])
      then ∃ t c r v : string,
             rice_consultant !! label ≫= (.!! "type") = Some t
             ∧ rice_consultant !! label ≫= (.!! "cause") = Some c
             ∧ rice_consultant !! label ≫= (.!! "remedy") = Some r
             ∧ rice_consultant !! label ≫= (.!! "prevention") = Some v
             ∧ advised = treatment_plan t c r v
      else advised = advice_unavailable.
Proof.
  intros Hm Hcw Hg Hy He Hk.
  rewrite (diagnose_diagnosed w im path rest m results label conf Hm Hcw Hg Hy He).
  edestruct (get_advice_rice_consultant
               (set_trace
                  (trace w ++ analyzing im
                     ++ [ev_predict (obj_id m) path; st_success (diagnosis_text label conf)])
                  (set_rng rest w)) label Hk)
    as (advised & Ha & Hadv).
  exists advised. split; [|exact Hadv].
  rewrite Ha. f_equal. apply World_eq; try done.
  cbn [trace set_trace set_rng]. by rewrite <-!app_assoc.
Qed.

End Advised.

Lemma diagnose_unreadable_results_witness :
  (diagnose leaf
     (serving (F:=float) (λ _, Ret [ {| r_probs := None; r_names := ∅ |} ]))).1
  = Raise (AttributeError "top1").
Proof.
  rewrite (diagnose_unreadable_results
             (serving (F:=float) (λ _, Ret [ {| r_probs := None; r_names := ∅ |} ]))
             leaf "/tmp/tmpabcdefgh.jpg" []
             {| obj_id := 0;
                yolo_weights := λ _, Ret [ {| r_probs := None; r_names := ∅ |} ] |}
             [ {| r_probs := None; r_names := ∅ |} ] (AttributeError "top1")
             (serving_mkstemp _) eq_refl eq_refl eq_refl eq_refl).
  reflexivity.
Defined.

Lemma diagnose_always_advises_witness :
  ∃ advised : list (@Event float),
    trace (diagnose leaf (serving (answers healthy_distribution))).2
    = (analyzing leaf
         ++ [ev_predict 0 "/tmp/tmpabcdefgh.jpg";
             st_success (diagnosis_text "Healthy" 75%float)]
         ++ advised)%list.
Proof.
  destruct (diagnose_always_advises (serving (answers healthy_distribution)) leaf
              "/tmp/tmpabcdefgh.jpg" []
              {| obj_id := 0; yolo_weights := answers healthy_distribution |}
              (results_of healthy_distribution) "Healthy" 75%float
              (serving_mkstemp _) eq_refl eq_refl eq_refl healthy_extracted eq_refl)
    as (advised & Hd & _).
  exists advised. rewrite Hd. reflexivity.
Defined.

Section Runs.

Context {F : Type} `{Scalar F}.

Local Abbreviation World := (@World F) (only parsing).
Local Abbreviation Py := (@Py F) (only parsing).
Local Abbreviation Event := (@Event F) (only parsing).
Local Abbreviation Result := (@Result F) (only parsing).
Local Abbreviation YOLOModel := (@YOLOModel F) (only parsing).
Local Abbreviation Classifier := (@Classifier F) (only parsing).
Local Abbreviation Inputs := (@Inputs F) (only parsing).
Local Abbreviation UploadedFile := (@UploadedFile F) (only parsing).

Implicit Types (w : World) (im : Image) (inp : Inputs).

(** ** The input tabs *)

Lemma bind_emit {A} (e : Event) (k : unit → Py A) w :
  bind (emit e) k w = k tt (set_trace (trace w ++ [e]) w).
Proof. reflexivity. Qed.

Lemma Image_open_pure (f : UploadedFile) w w0 :
  Image_open f w = ((Image_open f w0).1, w).
Proof. unfold Image_open. by destruct (upload_content f). Qed.

(** X7. Without a camera image and without a click on "Analyze Image",
    the input tabs only render: an upload is opened but not analysed
    (no temporary file, no backend call), and an upload that cannot be
    decoded raises before the button is rendered. *)
Theorem gallery_waits_for_click inp w :
  cam_img inp = None →
  analyze_clicked inp = false →
  input_tabs inp w
  = match up_file inp with
    | None => (Ret tt, set_trace (trace w ++ tab_widgets) w)
    | Some f =>
        match upload_content f with
        | ImageFile _ _ =>
            (Ret tt,
             set_trace (trace w ++ tab_widgets ++ [st_button "Analyze Image"]) w)
        | _ => (Raise UnidentifiedImageError, set_trace (trace w ++ tab_widgets) w)
        end
    end.
Proof.
  intros Hc Hb. unfold input_tabs. rewrite Hc, Hb.
  unfold bind, emit, ret, Image_open.
  destruct (up_file inp) as [f|]; cbn.
  - destruct (upload_content f); cbn; f_equal;
      apply World_eq; try done; cbn; by rewrite <-!app_assoc.
  - f_equal. apply World_eq; try done. cbn. by rewrite <-!app_assoc.
Qed.

(** X8. A camera image is diagnosed as soon as it is there, and an
    exception from that call ends the run: the gallery tab is not
    reached, whether or not an upload is waiting and the button was
    clicked. *)
Theorem camera_failure_ends_the_run inp w (f : UploadedFile) (img : Image)
    (e : Exn) (w' : World) :
  cam_img inp = Some f →
  (Image_open f w).1 = Ret img →
  diagnose img
    (set_trace (trace w ++ [st_tabs ["📸 Live Camera"; "📂 Gallery Upload"];
                            st_camera_input "Tap to Snap"]) w)
  = (Raise e, w') →
  input_tabs inp w = (Raise e, w').
Proof.
  intros Hc Ho Hd. unfold input_tabs. rewrite Hc.
  rewrite !bind_emit.
  replace (set_trace _ (set_trace _ w))
    with (set_trace (trace w ++ [st_tabs ["📸 Live Camera"; "📂 Gallery Upload"];
                                 st_camera_input "Tap to Snap"]) w)
    by (apply World_eq; try done; cbn [trace set_trace]; by rewrite <-app_assoc).
  apply bind_Raise. rewrite <-Hd.
  apply bind_Ret. rewrite (Image_open_pure f _ w), Ho. reflexivity.
Qed.

(** ** Runs of the script *)

(** With an empty cache and the artifact in place, a run builds the
    model once, caches it, binds [model] to it and goes on to the tabs. *)
Lemma script_loads inp w (clf : Classifier) :
  resource_cache w = None →
  disk w !! "best.pt" = Some (Weights clf) →
  script inp w
  = input_tabs inp
      (set_g_model (Some {| obj_id := next_id w; yolo_weights := clf |})
         (set_resource_cache (Some {| obj_id := next_id w; yolo_weights := clf |})
            (set_next_id (S (next_id w))
               (set_g_rice_consultant (Some rice_consultant)
                  (set_trace (trace w ++ page_header ++ [ev_YOLO "best.pt"]) w))))).
Proof.
  intros Hc Hd. unfold script.
  rewrite bind_emit. unfold bind at 1, assign_rice_consultant at 1.
  rewrite !bind_emit.
  unfold bind at 1, load_or_stop at 1, try_except.
  erewrite bind_Ret; [|by apply load_model_first].
  unfold assign_model. f_equal. apply World_eq; try done.
  cbn [trace set_trace set_g_model set_resource_cache set_next_id
       set_g_rice_consultant page_header].
  by rewrite <-!app_assoc.
Qed.

(** X9. A run of the script either stops at line 59 (nothing cached, no
    loadable artifact) or gets past it with the global [model] bound to
    the cached object: the one found in the cache, or the one just
    built from [best.pt].  Whatever the tabs do afterwards, cache and
    global still hold that object when the run ends. *)
Theorem run_stops_or_binds_cached_model inp w :
  (resource_cache w = None
   ∧ (∀ clf, disk w !! "best.pt" ≠ Some (Weights clf))
   ∧ (script inp w).1 = Raise StopException
   ∧ resource_cache (script inp w).2 = None)
  ∨ ∃ m : YOLOModel,
      (resource_cache w = Some m
       ∨ resource_cache w = None
         ∧ disk w !! "best.pt" = Some (Weights (yolo_weights m))
         ∧ obj_id m = next_id w)
      ∧ resource_cache (script inp w).2 = Some m
      ∧ g_model (script inp w).2 = Some m.
Proof.
  destruct (resource_cache w) as [m|] eqn:Hc.
  - right. exists m. split; [by left|].
    rewrite (script_cached inp w m Hc).
    rewrite (preserves_input_tabs resource_cache inp Quiet_resource_cache).
    by rewrite (preserves_input_tabs g_model inp Quiet_g_model).
  - destruct (disk w !! "best.pt") as [[| |clf|]|] eqn:Hd.
    3:{ right. exists {| obj_id := next_id w; yolo_weights := clf |}.
        split; [by right|].
        rewrite (script_loads inp w clf Hc Hd).
        rewrite (preserves_input_tabs resource_cache inp Quiet_resource_cache).
        by rewrite (preserves_input_tabs g_model inp Quiet_g_model). }
    all: left; split; [done|].
    all: assert (Hn : ∀ clf, disk w !! "best.pt" ≠ Some (Weights clf))
           by (intros clf; by rewrite Hd).
    all: split; [by rewrite <-Hd|].
    all: by rewrite (script_stops inp w Hc Hn).
Qed.

(** X10. A run that stopped has cached nothing: once a loadable
    artifact is at [best.pt], the next run of the script in the same
    process builds the model from it, caches it and binds [model]. *)
Theorem stopped_run_caches_nothing inp inp' w (d : gmap string File)
    (clf : Classifier) :
  resource_cache w = None →
  (∀ clf, disk w !! "best.pt" ≠ Some (Weights clf)) →
  d !! "best.pt" = Some (Weights clf) →
  (rerun inp w).1 = Raise StopException
  ∧ ∃ m : YOLOModel,
      yolo_weights m = clf
      ∧ resource_cache (rerun inp' (set_disk d (rerun inp w).2)).2 = Some m
      ∧ g_model (rerun inp' (set_disk d (rerun inp w).2)).2 = Some m.
Proof.
  intros Hc Hn Hd. unfold rerun.
  rewrite (script_stops inp (fresh_namespace w) Hc Hn). split; [done|].
  exists {| obj_id := next_id w; yolo_weights := clf |}. split; [done|].
  rewrite (script_loads inp' _ clf); [|done..].
  rewrite (preserves_input_tabs resource_cache inp' Quiet_resource_cache).
  by rewrite (preserves_input_tabs g_model inp' Quiet_g_model).
Qed.

End Runs.

Section Sessions.

Context {F : Type} `{Scalar F}.

Local Abbreviation World := (@World F) (only parsing).
Local Abbreviation Py := (@Py F) (only parsing).
Local Abbreviation Event := (@Event F) (only parsing).
Local Abbreviation YOLOModel := (@YOLOModel F) (only parsing).
Local Abbreviation Classifier := (@Classifier F) (only parsing).
Local Abbreviation Inputs := (@Inputs F) (only parsing).

Implicit Types (w : World) (im : Image) (inp : Inputs).

(** ** The model is built once per process *)

Lemma filter_false {A} (p : A → bool) (l : list A) :
  Forall (λ x, p x = false) l → filter p l = [].
Proof.
  induction 1 as [|x l Hx _ IH]; [done|].
  rewrite filter_cons_False; [done|]. rewrite Hx. exact id.
Qed.

Lemma rendering_not_YOLO (e : Event) : is_rendering e = true → is_YOLO e = false.
Proof. by destruct e. Qed.

(** No statement of [diagnose] builds a model. *)
Lemma appends_diagnose im : appends (λ e : Event, is_YOLO e = false) (diagnose im).
Proof.
  apply appends_bind; [by apply appends_emit|]. intros _.
  apply appends_bind; [by apply appends_emit|]. intros _.
  apply appends_bind.
  { apply appends_silent. intros w.
    unfold save_temp_file, bind, NamedTemporaryFile, Image_save, ret.
    destruct (mkstemp_inner _ _ _) as [[path rest]|]; [|done]. cbn.
    destruct (EXTENSION _); [|done]. destruct (can_write _ _); [done|].
    by rewrite lookup_insert_eq. }
  intros tmp_path. apply appends_bind.
  { apply appends_silent. intros w. unfold global_model. by destruct (g_model w). }
  intros m. apply appends_bind.
  { apply appends_bind; [by apply appends_emit|]. intros _.
    apply appends_silent. intros w. by repeat case_match. }
  intros results. apply appends_bind.
  { apply appends_silent. intros w. unfold os_remove. by case_match. }
  intros _. eapply appends_mono; [apply rendering_not_YOLO|].
  apply appends_after_inference.
Qed.

Lemma appends_input_tabs inp :
  appends (λ e : Event, is_YOLO e = false) (input_tabs inp).
Proof.
  assert (Ho : ∀ f, appends (λ e : Event, is_YOLO e = false) (Image_open f)).
  { intros f. apply appends_silent. intros w. unfold Image_open. by case_match. }
  apply appends_bind; [by apply appends_emit|]. intros _.
  apply appends_bind; [by apply appends_emit|]. intros _.
  apply appends_bind.
  { destruct (cam_img inp); [|by apply appends_silent].
    apply appends_bind; [apply Ho|]. intros img. apply appends_diagnose. }
  intros _. apply appends_bind; [by apply appends_emit|]. intros _.
  destruct (up_file inp); [|by apply appends_silent].
  apply appends_bind; [apply Ho|]. intros img.
  apply appends_bind; [by apply appends_emit|]. intros _.
  destruct (analyze_clicked inp); [apply appends_diagnose|by apply appends_silent].
Qed.

Lemma script_cached_builds_nothing inp w (m : YOLOModel) :
  resource_cache w = Some m →
  filter is_YOLO (trace (script inp w).2) = filter is_YOLO (trace w).
Proof.
  intros Hc. rewrite (script_cached inp w m Hc).
  edestruct (appends_input_tabs inp) as (es & -> & Hes).
  cbn [trace set_trace set_g_model set_g_rice_consultant].
  rewrite !filter_app, (filter_false _ es Hes). cbn. by rewrite !app_nil_r.
Qed.

Lemma session_cached_builds_nothing (runs : list Inputs) w (m : YOLOModel) :
  resource_cache w = Some m →
  filter is_YOLO (trace (session runs w).2) = filter is_YOLO (trace w).
Proof.
  revert w. induction runs as [|inp runs IH]; intros w Hc; [done|].
  cbn [session]. unfold rerun.
  pose proof (script_keeps_cache inp (fresh_namespace w) m Hc) as Hk.
  pose proof (script_cached_builds_nothing inp (fresh_namespace w) m Hc) as Hs.
  destruct (script inp (fresh_namespace w)) as [r w1]. cbn [snd] in Hk, Hs.
  specialize (IH w1 Hk). destruct (session runs w1) as [rs w2].
  cbn [snd] in *. by rewrite IH, Hs.
Qed.

(** X11. In a process that starts with an empty cache and a loadable
    artifact, a session of one or more script runs builds the model
    exactly once, in its first run: whatever the runs diagnose and
    however those calls end, the trace gains the one [YOLO("best.pt")]
    call and no other. *)
Theorem model_built_once_per_session inp (runs : list Inputs) w (clf : Classifier) :
  resource_cache w = None →
  disk w !! "best.pt" = Some (Weights clf) →
  filter is_YOLO (trace (session (inp :: runs) w).2)
  = (filter is_YOLO (trace w) ++ [ev_YOLO "best.pt"])%list.
Proof.
  intros Hc Hd. cbn [session]. unfold rerun.
  assert (Hs : filter is_YOLO (trace (script inp (fresh_namespace w)).2)
               = (filter is_YOLO (trace w) ++ [ev_YOLO "best.pt"])%list
             ∧ ∃ m, resource_cache (script inp (fresh_namespace w)).2 = Some m).
  { rewrite (script_loads inp (fresh_namespace w) clf Hc Hd). split.
    - edestruct (appends_input_tabs inp) as (es & -> & Hes).
      cbn [trace set_trace set_g_model set_resource_cache set_next_id
           set_g_rice_consultant fresh_namespace].
      rewrite !filter_app, (filter_false _ es Hes). cbn. by rewrite !app_nil_r.
    - eexists.
      by rewrite (preserves_input_tabs resource_cache inp Quiet_resource_cache). }
  destruct Hs as [Hs [m Hm]].
  destruct (script inp (fresh_namespace w)) as [r w1]. cbn [snd] in Hs, Hm.
  pose proof (session_cached_builds_nothing runs w1 m Hm) as Hr.
  destruct (session runs w1) as [rs w2]. cbn [snd] in *. by rewrite Hr.
Qed.

End Sessions.

(** ** The further properties at sample inputs *)

Lemma gallery_waits_for_click_witness :
  (input_tabs {| cam_img := None; up_file := Some png_with_alpha; analyze_clicked := false |}
     (serving (F:=float) fails)).1
  = Ret tt.
Proof.
  rewrite (gallery_waits_for_click
             {| cam_img := None; up_file := Some png_with_alpha; analyze_clicked := false |}
             (serving (F:=float) fails) eq_refl eq_refl).
  reflexivity.
Defined.

Lemma camera_failure_ends_the_run_witness :
  (input_tabs {| cam_img := Some png_with_alpha; up_file := Some png_with_alpha;
                 analyze_clicked := true |}
     (serving (F:=float) fails)).1
  = Raise (OSError "cannot write mode RGBA as JPEG").
Proof.
  rewrite (camera_failure_ends_the_run
             {| cam_img := Some png_with_alpha; up_file := Some png_with_alpha;
                analyze_clicked := true |}
             (serving (F:=float) fails) png_with_alpha
             {| im_format := Some PNG; im_mode := M_RGBA; im_pixels := [] |}
             _ _ eq_refl eq_refl
             (diagnose_staging_refused
                (set_trace
                   (trace (serving fails)
                      ++ [st_tabs ["📸 Live Camera"; "📂 Gallery Upload"];
                          st_camera_input "Tap to Snap"])
                   (serving fails))
                {| im_format := Some PNG; im_mode := M_RGBA; im_pixels := [] |}
                "/tmp/tmpabcdefgh.jpg" [] (serving_mkstemp fails) eq_refl)).
  reflexivity.
Defined.

Lemma stopped_run_caches_nothing_witness :
  ∃ m : @YOLOModel float,
    resource_cache
      (rerun {| cam_img := None; up_file := None; analyze_clicked := false |}
         (set_disk {[ "best.pt" := Weights fails ]}
            (rerun {| cam_img := None; up_file := None; analyze_clicked := false |}
               (boot ∅ [])).2)).2
    = Some m.
Proof.
  destruct (stopped_run_caches_nothing
              {| cam_img := None; up_file := None; analyze_clicked := false |}
              {| cam_img := None; up_file := None; analyze_clicked := false |}
              (boot (F:=float) ∅ []) {[ "best.pt" := Weights fails ]} fails eq_refl
              (λ clf Hc, eq_ind None (λ o, match o with None => True | Some _ => False end)
                           I _ (eq_trans (eq_sym (lookup_empty _)) Hc))
              (lookup_singleton_eq _ _))
    as (_ & m & _ & Hm & _).
  exists m. exact Hm.
Defined.

Lemma model_built_once_per_session_witness :
  filter is_YOLO
    (trace (session [ {| cam_img := None; up_file := None; analyze_clicked := false |};
                      {| cam_img := None; up_file := None; analyze_clicked := false |} ]
              (boot (F:=float) {[ "best.pt" := Weights fails ]} [])).2)
  = [ev_YOLO "best.pt"].
Proof.
  exact (model_built_once_per_session
           {| cam_img := None; up_file := None; analyze_clicked := false |}
           [ {| cam_img := None; up_file := None; analyze_clicked := false |} ]
           (boot (F:=float) {[ "best.pt" := Weights fails ]} []) fails eq_refl
           (lookup_singleton_eq _ _)).
Defined.
